(** * Helm version checker

    A shallow embedding of [src/src/version_checker.py] and the properties
    its specification states about it.

    The script is sequential I/O glue.  The embedding keeps its shape:

    - values that come out of [yaml.safe_load] and [response.json()] are
      Python objects, modelled by [pyval] (null, booleans, integers, floats,
      strings, sequences and string-keyed mappings, in insertion order);
    - every function of the script is a computation in a small monad [M]
      that threads the state of the issue tracker, collects the observable
      events (lines printed to stdout and stderr, HTTP requests) and may end
      in a Python exception;
    - [try ... except] is [try_except], with one handler per [except]
      clause, and the [while url:] loop of the issue search runs on fuel;
    - what the script gets from outside (the file system, the chart
      repositories, the issue tracker, the interpreter's rendering of
      exceptions and of compound values) is a [World].

    Left outside the model: how [argparse] scans [sys.argv] (the model of
    [parse_args] starts from the scanned command line), mapping keys that
    are not strings, and the YAML values that are none of the above
    (timestamps, binary data, sets).  A [str] is held as its UTF-8
    encoding, and [chars] gives its characters. *)

From Stdlib Require Import ZArith String Ascii List Bool Lia.
From Stdlib Require Import DecimalString.
From Stdlib Require Import Floats.
Import ListNotations.
Open Scope list_scope.
Open Scope string_scope.

(** ** Python values *)

#[local] Set Warnings "-register-all".

Inductive pyval : Type :=
| PNone
| PBool (b : bool)
| PInt (z : Z)
| PFloat (f : float)
| PStr (s : string)
| PList (l : list pyval)
| PDict (d : list (string * pyval)).

(** [type(v).__name__] *)
Definition py_type_name (v : pyval) : string :=
  match v with
  | PNone => "NoneType"
  | PBool _ => "bool"
  | PInt _ => "int"
  | PFloat _ => "float"
  | PStr _ => "str"
  | PList _ => "list"
  | PDict _ => "dict"
  end.

(** [bool(v)], the test behind [if v], [not v] and [while v] *)
Definition py_truthy (v : pyval) : bool :=
  match v with
  | PNone => false
  | PBool b => b
  | PInt z => negb (z =? 0)%Z
  | PFloat f => negb (PrimFloat.eqb f 0%float)
  | PStr s => negb (s =? "")
  | PList l => match l with [] => false | _ :: _ => true end
  | PDict d => match d with [] => false | _ :: _ => true end
  end.

(** [v == s] for a [str] object [s]: no other type compares equal to a
    string. *)
Definition py_eq_str (v : pyval) (s : string) : bool :=
  match v with
  | PStr x => (x =? s)
  | _ => false
  end.

Definition is_dict (v : pyval) : bool :=
  match v with PDict _ => true | _ => false end.

(** ** Exceptions *)

(** The exception classes the script can meet.  Those raised by the
    libraries carry the text the library gave them; [response] of a
    [RequestException] is the attached response, if any, as its [ok] flag
    (the truth value of a [requests.Response]) and its [text]. *)
Inductive py_exn : Type :=
| SystemExit (code : Z)
| FileNotFoundError (text : string)
| LoadError (text : string)
| YAMLError (text : string)
| RequestException (text : string) (response : option (bool * string))
| KeyError (key : pyval)
| IndexError (obj : pyval)
| TypeError (obj : pyval) (key : pyval)
| AttributeError (obj : pyval) (attr : string).

Inductive result (A : Type) : Type :=
| Ok (a : A)
| Exc (e : py_exn)
| OutOfFuel.
Arguments Ok {A} a.
Arguments Exc {A} e.
Arguments OutOfFuel {A}.

Definition rbind {A B} (r : result A) (f : A -> result B) : result B :=
  match r with
  | Ok a => f a
  | Exc e => Exc e
  | OutOfFuel => OutOfFuel
  end.

(** ** Operations on Python values *)

Fixpoint dict_get (d : list (string * pyval)) (k : string) : option pyval :=
  match d with
  | [] => None
  | (k', v) :: rest => if (k' =? k) then Some v else dict_get rest k
  end.

(** [obj.get(k, default)]: only mappings have the method. *)
Definition py_get (obj : pyval) (k : string) (default : pyval) : result pyval :=
  match obj with
  | PDict d => Ok (match dict_get d k with Some v => v | None => default end)
  | _ => Exc (AttributeError obj "get")
  end.

(** Sequence indexing [l[i]] with Python's negative indices. *)
Definition seq_index {A} (l : list A) (i : Z) : option A :=
  let n := Z.of_nat (length l) in
  if ((0 <=? i) && (i <? n))%Z then nth_error l (Z.to_nat i)
  else if ((- n <=? i) && (i <? 0))%Z then nth_error l (Z.to_nat (n + i))
  else None.

(** A continuation byte of UTF-8, [10xxxxxx]. *)
Definition is_continuation (c : ascii) : bool :=
  match c with
  | Ascii _ _ _ _ _ _ b6 b7 => b7 && negb b6
  end.

(** The characters of a [str]: every byte that starts a character, with
    the continuation bytes that follow it. *)
Fixpoint chars (s : string) : list string :=
  match s with
  | EmptyString => []
  | String c rest =>
      match rest with
      | String c' _ =>
          if is_continuation c' then
            match chars rest with
            | h :: t => String c h :: t
            | [] => [String c EmptyString]
            end
          else String c EmptyString :: chars rest
      | EmptyString => [String c EmptyString]
      end
  end.

(** [obj[key]].  A mapping raises [KeyError] for a missing hashable key
    and [TypeError] for an unhashable one; a sequence takes integer (or
    boolean) indices only; nothing else is subscriptable. *)
Definition py_getitem (obj key : pyval) : result pyval :=
  match obj with
  | PDict d =>
      match key with
      | PStr k =>
          match dict_get d k with
          | Some v => Ok v
          | None => Exc (KeyError key)
          end
      | PList _ | PDict _ => Exc (TypeError obj key)
      | _ => Exc (KeyError key)
      end
  | PList l =>
      match key with
      | PInt i =>
          match seq_index l i with Some v => Ok v | None => Exc (IndexError obj) end
      | PBool b =>
          match seq_index l (Z.b2z b) with Some v => Ok v | None => Exc (IndexError obj) end
      | _ => Exc (TypeError obj key)
      end
  | PStr s =>
      match key with
      | PInt i =>
          match seq_index (chars s) i with
          | Some c => Ok (PStr c)
          | None => Exc (IndexError obj)
          end
      | PBool b =>
          match seq_index (chars s) (Z.b2z b) with
          | Some c => Ok (PStr c)
          | None => Exc (IndexError obj)
          end
      | _ => Exc (TypeError obj key)
      end
  | _ => Exc (TypeError obj key)
  end.

(** [iter(obj)], as the [for] statement and [str.join] use it. *)
Definition py_iter (obj : pyval) : result (list pyval) :=
  match obj with
  | PList l => Ok l
  | PDict d => Ok (map (fun kv => PStr (fst kv)) d)
  | PStr s => Ok (map PStr (chars s))
  | _ => Exc (TypeError obj PNone)
  end.

Fixpoint all_strings (l : list pyval) : option (list string) :=
  match l with
  | [] => Some []
  | PStr s :: rest =>
      match all_strings rest with
      | Some ss => Some (s :: ss)
      | None => None
      end
  | _ :: _ => None
  end.

(** [sep.join(obj)]: [TypeError] unless [obj] is an iterable of strings. *)
Definition py_join (sep : string) (obj : pyval) : result string :=
  rbind (py_iter obj) (fun items =>
    match all_strings items with
    | Some ss => Ok (String.concat sep ss)
    | None => Exc (TypeError obj PNone)
    end).

(** [s.rstrip('/')] *)
Fixpoint rstrip_slash (s : string) : string :=
  match s with
  | EmptyString => EmptyString
  | String c rest =>
      let rest' := rstrip_slash rest in
      if (rest' =? "") && (c =? "/")%char then "" else String c rest'
  end.

(** [obj.rstrip('/')]: a method of [str] only. *)
Definition py_rstrip_slash (obj : pyval) : result string :=
  match obj with
  | PStr s => Ok (rstrip_slash s)
  | _ => Exc (AttributeError obj "rstrip")
  end.

Definition str_of_Z (z : Z) : string := NilZero.string_of_int (Z.to_int z).

(** ** The outside world *)

(** What a run can be observed to do. *)
Inductive event : Type :=
| Stdout (line : string)
| Stderr (line : string)
| GetIndex (url : string)
| GetIssues (url token : string) (with_params : bool)
| PostIssue (url token title body : string) (assignees : pyval).

(** [open(path)] followed by [yaml.safe_load]. *)
Inductive file_load : Type :=
| FileDoc (doc : pyval)
| FileMissing (text : string)
| FileUnreadable (text : string).

(** [requests.get(index_url, timeout=10)], [raise_for_status()] and
    [yaml.safe_load(response.content)]: the transport or the status fails,
    or the body is not YAML, or it is a document. *)
Inductive index_fetch : Type :=
| IndexFailed (text : string) (response : option (bool * string))
| IndexNotYaml (text : string)
| IndexDoc (doc : pyval).

(** One page of the issue list: [requests.get], [raise_for_status()],
    [response.json()] and [response.links]. *)
Inductive page_fetch : Type :=
| PageFailed (text : string) (response : option (bool * string))
| Page (issues : pyval) (next : option string).

Inductive post_outcome : Type :=
| PostFailed (text : string) (response : option (bool * string))
| Posted.

(** An entry of [Path(charts_dir).glob("*/values.yaml")]: the path as it
    prints, and [value_file.parent.name]. *)
Record value_file : Type := { vf_path : string; vf_group : string }.

(** The environment of a run.  [T] is the state of the issue tracker: a
    listing reads it, a create-issue request may change it.  Files and
    chart repositories do not change during a run.  [py_repr] is the
    interpreter's [str()] of floats and containers, [exn_text] its [str(e)]
    of the exceptions it raises itself. *)
Record World (T : Type) : Type := {
  py_repr : pyval -> string;
  exn_text : py_exn -> string;
  is_file : string -> bool;
  glob_values : string -> list value_file;
  load_yaml : string -> file_load;
  fetch_index : string -> index_fetch;
  fetch_issues : T -> string -> string -> bool -> page_fetch;
  post_issue : T -> string -> string -> string -> string -> pyval -> post_outcome * T
}.
Arguments py_repr {T} w v : rename.
Arguments exn_text {T} w e : rename.
Arguments is_file {T} w path : rename.
Arguments glob_values {T} w dir : rename.
Arguments load_yaml {T} w path : rename.
Arguments fetch_index {T} w url : rename.
Arguments fetch_issues {T} w t url token with_params : rename.
Arguments post_issue {T} w t url token title body assignees : rename.

(** ** The monad of the script *)

Definition M (T A : Type) : Type := T -> list event * T * result A.

Definition ret {T A} (a : A) : M T A := fun t => ([], t, Ok a).

Definition bind {T A B} (m : M T A) (k : A -> M T B) : M T B :=
  fun t =>
    match m t with
    | (ev, t1, Ok a) => let '(ev2, t2, r) := k a t1 in ((ev ++ ev2)%list, t2, r)
    | (ev, t1, Exc e) => (ev, t1, Exc e)
    | (ev, t1, OutOfFuel) => (ev, t1, OutOfFuel)
    end.

Definition raise {T A} (e : py_exn) : M T A := fun t => ([], t, Exc e).

Definition out_of_fuel {T A} : M T A := fun t => ([], t, OutOfFuel).

Definition lift {T A} (r : result A) : M T A := fun t => ([], t, r).

Definition emit {T} (e : event) : M T unit := fun t => ([e], t, Ok tt).

(** [print(s)] and [print(s, file=sys.stderr)] *)
Definition print {T} (s : string) : M T unit := emit (Stdout s).
Definition eprint {T} (s : string) : M T unit := emit (Stderr s).

(** [try: body  except ...: handler]: [handler e] is the clause that
    matches [e], if one does. *)
Definition try_except {T A} (body : M T A) (handler : py_exn -> option (M T A))
  : M T A :=
  fun t =>
    match body t with
    | (ev, t1, Exc e) =>
        match handler e with
        | Some h => let '(ev2, t2, r) := h t1 in ((ev ++ ev2)%list, t2, r)
        | None => (ev, t1, Exc e)
        end
    | out => out
    end.

(** [for x in l: body x] *)
Fixpoint for_each {T A} (l : list A) (body : A -> M T unit) : M T unit :=
  match l with
  | [] => ret tt
  | x :: rest => bind (body x) (fun _ => for_each rest body)
  end.

Declare Scope py_scope.
Delimit Scope py_scope with py.
Notation "x <- m ;; k" := (bind m (fun x => k))
  (at level 61, m at next level, right associativity) : py_scope.
Notation "m ;; k" := (bind m (fun _ => k))
  (at level 61, right associativity) : py_scope.
Open Scope py_scope.

(** [except Exception]: every exception but [SystemExit]. *)
Definition is_Exception (e : py_exn) : bool :=
  match e with SystemExit _ => false | _ => true end.

(** The status the process ends with: 0 when [main] returns, the code of
    [sys.exit], 1 when another exception reaches the top level. *)
Definition exit_status {A} (r : result A) : option Z :=
  match r with
  | Ok _ => Some 0%Z
  | Exc (SystemExit c) => Some c
  | Exc _ => Some 1%Z
  | OutOfFuel => None
  end.

Definition nl : string := String (ascii_of_nat 10) EmptyString.

Definition API_URL : string := "https://api.github.com".

(** ** The script *)

Section Script.

Context {T : Type} (w : World T).

(** [str(v)], which is also how an f-string renders [{v}]. *)
Definition py_str (v : pyval) : string :=
  match v with
  | PNone => "None"
  | PBool true => "True"
  | PBool false => "False"
  | PInt z => str_of_Z z
  | PStr s => s
  | PFloat _ | PList _ | PDict _ => py_repr w v
  end.

(** [str(e)] for a caught exception: the library's text, or the
    interpreter's. *)
Definition str_exn (e : py_exn) : string :=
  match e with
  | FileNotFoundError text | LoadError text | YAMLError text
  | RequestException text _ => text
  | _ => exn_text w e
  end.

(** [with open(path, 'r') as f: yaml.safe_load(f)] *)
Definition open_yaml (path : string) : M T pyval :=
  match load_yaml w path with
  | FileDoc doc => ret doc
  | FileMissing text => raise (FileNotFoundError text)
  | FileUnreadable text => raise (LoadError text)
  end.

(** Lines 32-48. *)
Definition get_maintainers (file_path app_group : string) : M T pyval :=
  try_except
    (maintainers_data <- open_yaml file_path ;;
     assignees <- lift (py_get maintainers_data app_group (PList [])) ;;
     if negb (py_truthy assignees) then
       print ("No specific maintainers found for '" ++ app_group
              ++ "'. Looking for 'default' maintainers.") ;;
       lift (py_get maintainers_data "default" (PList []))
     else ret assignees)
    (fun e =>
       match e with
       | FileNotFoundError _ =>
           Some (eprint ("Error: Maintainers file not found at " ++ file_path) ;;
                 ret (PList []))
       | SystemExit _ => None
       | _ =>
           Some (eprint ("Error reading or parsing maintainers file: " ++ str_exn e) ;;
                 ret (PList []))
       end).

(** [requests.get(index_url, timeout=10)], [response.raise_for_status()]
    and [yaml.safe_load(response.content)], lines 58-60. *)
Definition download_index (index_url : string) : M T pyval :=
  emit (GetIndex index_url) ;;
  match fetch_index w index_url with
  | IndexFailed text response => raise (RequestException text response)
  | IndexNotYaml text => raise (YAMLError text)
  | IndexDoc doc => ret doc
  end.

(** Lines 50-67.  [repoPath] is not used by the body. *)
Definition get_latest_helm_version (repo_url chart_name repoPath : pyval)
  : M T pyval :=
  if negb (py_truthy repo_url) || py_eq_str repo_url "null" then
    eprint ("Warning: Invalid or missing repoURL for chart '" ++ py_str chart_name
            ++ "'. Skipping.") ;;
    ret PNone
  else
    stripped <- lift (py_rstrip_slash repo_url) ;;
    let index_url := stripped ++ "/index.yaml" in
    try_except
      (index_data <- download_index index_url ;;
       entries <- lift (py_getitem index_data (PStr "entries")) ;;
       releases <- lift (py_getitem entries chart_name) ;;
       newest <- lift (py_getitem releases (PInt 0)) ;;
       latest_version <- lift (py_getitem newest (PStr "version")) ;;
       ret latest_version)
      (fun e =>
         match e with
         | RequestException _ _ =>
             Some (eprint ("Error: Failed to download index.yaml from " ++ index_url
                           ++ ". Details: " ++ str_exn e) ;;
                   ret PNone)
         | KeyError _ | IndexError _ | TypeError _ _ =>
             Some (eprint ("Error: Could not parse version for chart '"
                           ++ py_str chart_name ++ "' from " ++ index_url
                           ++ ". Details: " ++ str_exn e) ;;
                   ret PNone)
         | _ => None
         end).

(** The [for issue in issues] loop of lines 88-90: the number of the first
    issue whose title is [title], if there is one. *)
Fixpoint scan_issues (issues : list pyval) (title : string)
  : result (option pyval) :=
  match issues with
  | [] => Ok None
  | issue :: rest =>
      rbind (py_get issue "title" PNone) (fun t =>
        if py_eq_str t title then
          rbind (py_get issue "number" PNone) (fun n => Ok (Some n))
        else scan_issues rest title)
  end.

(** [requests.get(url, headers=headers, params=params, timeout=10)],
    [raise_for_status()], [response.json()] and [response.links], lines
    84-86 and 92-93.  [with_params] tells the first request, which carries
    [state=open&per_page=100], from the later ones, which carry none. *)
Definition get_issue_page (url token : string) (with_params : bool)
  : M T (pyval * option string) :=
  emit (GetIssues url token with_params) ;;
  fun t =>
    match fetch_issues w t url token with_params with
    | PageFailed text response => ([], t, Exc (RequestException text response))
    | Page issues next => ([], t, Ok (issues, next))
    end.

(** How one round of the [while] loop ends: with a [return], or with the
    next value of [url]. *)
Inductive round : Type :=
| Return (v : pyval)
| Next (url : option string).

(** The body of the loop, lines 83-102. *)
Definition issue_round (url token title : string) (with_params : bool)
  : M T round :=
  try_except
    (page <- get_issue_page url token with_params ;;
     items <- lift (py_iter (fst page)) ;;
     found <- lift (scan_issues items title) ;;
     match found with
     | Some number => ret (Return number)
     | None => ret (Next (snd page))
     end)
    (fun e =>
       match e with
       | RequestException text response =>
           let error_details :=
             match response with
             | Some (true, body) => body
             | _ => text
             end in
           Some (eprint ("Error checking for existing GitHub issues: " ++ error_details) ;;
                 ret (Return PNone))
       | _ => None
       end).

(** [while url:], lines 82-104.  [page_num] is counted by the source and
    never read; it is left out. *)
Fixpoint issue_loop (fuel : nat) (url : option string) (token title : string)
  (with_params : bool) : M T pyval :=
  match url with
  | None => ret PNone
  | Some u =>
      if (u =? "") then ret PNone
      else
        match fuel with
        | O => out_of_fuel
        | S fuel' =>
            r <- issue_round u token title with_params ;;
            match r with
            | Return v => ret v
            | Next url' => issue_loop fuel' url' token title false
            end
        end
  end.

Definition issues_url (repo : string) : string :=
  API_URL ++ "/repos/" ++ repo ++ "/issues".

(** Lines 69-104. *)
Definition check_existing_issue (fuel : nat) (repo token title : string)
  : M T pyval :=
  issue_loop fuel (Some (issues_url repo)) token title true.

(** [requests.post(issues_url, headers=headers, data=json.dumps(payload),
    timeout=10)] and [raise_for_status()], lines 119-120. *)
Definition send_issue (url token title body : string) (assignees : pyval)
  : M T unit :=
  emit (PostIssue url token title body assignees) ;;
  fun t =>
    match post_issue w t url token title body assignees with
    | (PostFailed text response, t') => ([], t', Exc (RequestException text response))
    | (Posted, t') => ([], t', Ok tt)
    end.

(** Lines 106-129. *)
Definition create_github_issue (repo token title body : string)
  (assignees : pyval) : M T unit :=
  try_except
    (send_issue (issues_url repo) token title body assignees ;;
     joined <- lift (py_join ", " assignees) ;;
     print ("Successfully created issue '" ++ title ++ "' and assigned to: "
            ++ joined))
    (fun e =>
       match e with
       | RequestException text response =>
           let error_details :=
             match response with
             | Some (_, body) => body
             | None => text
             end in
           Some (eprint ("Error creating GitHub issue '" ++ title ++ "': "
                         ++ error_details))
       | _ => None
       end).

(** The namespace that [parse_args] returns, lines 131-137. *)
Record Args : Type := {
  token : string;
  charts_path : string;
  maintainers_file : string
}.

(** The truth value and the rendering of an [Optional[str]] such as
    [os.getenv("GITHUB_REPOSITORY")]. *)
Definition env_truthy (v : option string) : bool :=
  match v with
  | Some s => negb (s =? "")
  | None => false
  end.

Definition env_str (v : option string) : string :=
  match v with
  | Some s => s
  | None => "None"
  end.

(** [obj.items()] *)
Definition py_items (obj : pyval) : result (list (string * pyval)) :=
  match obj with
  | PDict d => Ok d
  | _ => Exc (AttributeError obj "items")
  end.

(** The test of line 202: [latest_version != target_revision and
    target_revision]. *)
Definition update_wanted (latest_version : pyval) (target_revision : string)
  : bool :=
  negb (py_eq_str latest_version target_revision)
  && negb (target_revision =? "").

(** Line 203. *)
Definition issue_title (name : string) (latest_version : pyval) : string :=
  "New Version Available: " ++ name ++ " " ++ py_str latest_version.

(** Lines 215-222. *)
Definition issue_body (REPO value_file name target_revision : string)
  (latest_version : pyval) : string :=
  "New version available for **" ++ name ++ "**!" ++ nl ++ nl
  ++ "Current `targetRevision` set: `" ++ target_revision ++ "`" ++ nl
  ++ "New version available: `" ++ py_str latest_version ++ "`" ++ nl ++ nl
  ++ "Please consider creating a PR to update the `targetRevision` in this file: "
  ++ "[" ++ value_file ++ "](https://github.com/" ++ REPO ++ "/blob/main/"
  ++ value_file ++ ")" ++ nl ++ nl
  ++ "Thanks.".

(** Lines 208-224: the branch taken when no existing issue is known. *)
Definition open_issue (REPO github_token maintainers_file_path : string)
  (vf : value_file) (name target_revision title : string)
  (latest_version : pyval) : M T unit :=
  print ("Found new version for " ++ name ++ "! Creating issue...") ;;
  assignees <- get_maintainers maintainers_file_path (vf_group vf) ;;
  (if py_truthy assignees then
     joined <- lift (py_join ", " assignees) ;;
     print ("Found maintainers for '" ++ vf_group vf ++ "': " ++ joined)
   else ret tt) ;;
  let body :=
    issue_body REPO (vf_path vf) name target_revision latest_version in
  create_github_issue REPO github_token title body assignees.

(** Lines 202-226: what is done for an application once its latest
    version is known. *)
Definition notify (fuel : nat) (REPO github_token maintainers_file_path : string)
  (vf : value_file) (name target_revision : string) (latest_version : pyval)
  : M T unit :=
  if update_wanted latest_version target_revision then
    let title := issue_title name latest_version in
    existing_issue_number <- check_existing_issue fuel REPO github_token title ;;
    if negb (py_truthy existing_issue_number) then
      open_issue REPO github_token maintainers_file_path vf name
                 target_revision title latest_version
    else
      print ("Issue #" ++ py_str existing_issue_number ++ " for '" ++ title
             ++ "' already exists. Skipping.")
  else ret tt.

(** The body of the inner loop, lines 176-226, for one entry
    [name, details] of the values file. *)
Definition process_app (fuel : nat) (REPO github_token maintainers_file_path : string)
  (vf : value_file) (name : string) (details : pyval) : M T unit :=
  if negb (is_dict details) then
    eprint ("Warning: Skipping '" ++ name ++ "' in " ++ vf_path vf
            ++ " because its value is not a dictionary.")
  else
    repo_url <- lift (py_get details "repoURL" PNone) ;;
    revision <- lift (py_get details "targetRevision" (PStr "")) ;;
    let target_revision := py_str revision in
    chart <- lift (py_get details "chart" PNone) ;;
    repoPath <- lift (py_get details "chart" PNone) ;;
    if negb (py_truthy chart) || negb (py_truthy repoPath) then
      print ("Warning: Missing 'chart' key for '" ++ name ++ "' in " ++ vf_path vf
             ++ ". Skipping.")
    else
      latest_version <- get_latest_helm_version repo_url chart repoPath ;;
      if negb (py_truthy latest_version) then ret tt
      else
        print "----------------------------------------" ;;
        print ("Checking: " ++ name ++ " (from " ++ vf_group vf ++ ")") ;;
        print ("  -> Your Version (targetRevision): " ++ target_revision) ;;
        print ("  -> Latest Version Available:      " ++ py_str latest_version) ;;
        print "----------------------------------------" ;;
        notify fuel REPO github_token maintainers_file_path vf name
               target_revision latest_version.

(** The body of the outer loop, lines 163-226, for one values file. *)
Definition process_file (fuel : nat) (REPO github_token maintainers_file_path : string)
  (vf : value_file) : M T unit :=
  print (nl ++ "--- Processing file: " ++ vf_path vf ++ " ---") ;;
  loaded <-
    try_except
      (doc <- open_yaml (vf_path vf) ;; ret (Some doc))
      (fun e =>
         if is_Exception e then
           Some (eprint ("Error reading or parsing YAML file " ++ vf_path vf ++ ": "
                         ++ str_exn e) ;;
                 ret None)
         else None) ;;
  match loaded with
  | None => ret tt
  | Some apps_data =>
      if negb (py_truthy apps_data) then ret tt
      else
        items <- lift (py_items apps_data) ;;
        for_each items (fun item =>
          process_app fuel REPO github_token maintainers_file_path vf
                      (fst item) (snd item))
  end.

(** Lines 143-228: [main] from the point where [parse_args] has returned
    [args].  [REPO] is [os.getenv("GITHUB_REPOSITORY")], read when the
    module is loaded; [fuel] bounds the pages one issue search may
    visit. *)
Definition main (fuel : nat) (REPO : option string) (args : Args) : M T unit :=
  let github_token := token args in
  let maintainers_file_path := maintainers_file args in
  let charts_dir_path := charts_path args in
  if negb (env_truthy REPO) || (github_token =? "") then
    eprint "Error: GITHUB_REPOSITORY environment variable and --token argument must be set." ;;
    raise (SystemExit 1)
  else if negb (is_file w maintainers_file_path) then
    eprint ("Error: " ++ maintainers_file_path ++ " not found.") ;;
    raise (SystemExit 1)
  else
    let repo := env_str REPO in
    print ("Running on repository: " ++ repo) ;;
    let values_files := glob_values w charts_dir_path in
    match values_files with
    | [] =>
        print ("No 'values.yaml' files found in subdirectories of '"
               ++ charts_dir_path ++ "'. Exiting.")
    | _ :: _ =>
        for_each values_files
          (process_file fuel repo github_token maintainers_file_path) ;;
        print (nl ++ "Script finished.")
    end.

(** The options of the command line as [argparse] has scanned them: the
    value given to each option, if it was given, and what [argparse]
    prints before an error, its usage text and the name of the program. *)
Record options : Type := {
  given_token : option string;
  given_charts_path : option string;
  given_maintainers_file : option string;
  usage : string;
  prog : string
}.

(** What [argparse] makes of [sys.argv]: a request for help, arguments
    that are no use of the options (one it does not know, an option
    without its value), or the options. *)
Inductive command_line : Type :=
| HelpRequested (help : string)
| UsageError (report : string)
| Options (o : options).

Definition or_default (given : option string) (default : string) : string :=
  match given with
  | Some v => v
  | None => default
  end.

(** Lines 131-137: [--token] is required, the other two options have
    defaults.  Help is printed on stdout and ends the process with status
    0; an error is reported on stderr and ends it with status 2. *)
Definition parse_args (cl : command_line) : M T Args :=
  match cl with
  | HelpRequested help => print help ;; raise (SystemExit 0)
  | UsageError report => eprint report ;; raise (SystemExit 2)
  | Options o =>
      match given_token o with
      | None =>
          eprint (usage o) ;;
          eprint (prog o ++ ": error: the following arguments are required: --token") ;;
          raise (SystemExit 2)
      | Some tok =>
          ret {| token := tok;
                 charts_path := or_default (given_charts_path o) "./charts";
                 maintainers_file :=
                   or_default (given_maintainers_file o) "MAINTAINERS.yaml" |}
      end
  end.

(** Lines 139-228, [main] as a whole: [parse_args] at line 141, then the
    rest. *)
Definition main_program (fuel : nat) (REPO : option string) (cl : command_line)
  : M T unit :=
  args <- parse_args cl ;;
  main fuel REPO args.

End Script.

(** ** Reading the outcome of a computation *)

Definition trace_of {T A} (o : list event * T * result A) : list event :=
  fst (fst o).
Definition tracker_of {T A} (o : list event * T * result A) : T :=
  snd (fst o).
Definition result_of {T A} (o : list event * T * result A) : result A :=
  snd o.

Definition is_network (e : event) : bool :=
  match e with
  | GetIndex _ | GetIssues _ _ _ | PostIssue _ _ _ _ _ => true
  | Stdout _ | Stderr _ => false
  end.

Definition is_post (e : event) : bool :=
  match e with
  | PostIssue _ _ _ _ _ => true
  | _ => false
  end.

Definition is_issue_request (e : event) : bool :=
  match e with
  | GetIssues _ _ _ | PostIssue _ _ _ _ _ => true
  | _ => false
  end.

(** ** Maintainer lookup *)

(** A maintainers document as section 3 of the specification describes
    it: every key maps to a list. *)
Definition maintainers_wf (d : list (string * pyval)) : Prop :=
  forall k v, dict_get d k = Some v -> exists l, v = PList l.

(** ** Chart index lookup *)

(** The lookup the specification names, [entries[chartName][0].version],
    on a parsed index document. *)
Definition lookup_version (doc chart_name : pyval) : result pyval :=
  rbind (py_getitem doc (PStr "entries")) (fun entries =>
  rbind (py_getitem entries chart_name) (fun releases =>
  rbind (py_getitem releases (PInt 0)) (fun newest =>
  py_getitem newest (PStr "version")))).

(** [except (KeyError, IndexError, TypeError)] *)
Definition is_lookup_error (e : py_exn) : bool :=
  match e with
  | KeyError _ | IndexError _ | TypeError _ _ => true
  | _ => false
  end.

Definition index_url_of (repo_url : string) : string :=
  rstrip_slash repo_url ++ "/index.yaml".

(** ** Paginated issue search, as the specification describes it *)

(** An issue of a listing page whose title is [title], character for
    character. *)
Definition has_title (issue : pyval) (title : string) : Prop :=
  exists d, issue = PDict d /\ dict_get d "title" = Some (PStr title).

(** An issue of a listing page with another title, or with none. *)
Definition other_title (issue : pyval) (title : string) : Prop :=
  exists d, issue = PDict d /\ dict_get d "title" <> Some (PStr title).

(** The [number] field of an issue. *)
Definition issue_number (issue : pyval) : pyval :=
  match issue with
  | PDict d => match dict_get d "number" with Some n => n | None => PNone end
  | _ => PNone
  end.

(** How a walk along the pages ends. *)
Inductive search_end : Type :=
| Found (issue : pyval)
| Exhausted
| Failed (text : string) (response : option (bool * string)).

(** [search_path w t token title url p visited e]: starting at [url] (the
    first request when [p] holds) and following the [next] links of the
    tracker in state [t], the pages [visited] are met in this order, none
    but the last holds an issue titled [title], and the last one ends the
    walk: it holds such an issue ([Found], with the first one in page
    order), or it has no [next] link ([Exhausted]), or its request fails
    ([Failed]). *)
Inductive search_path {T : Type} (w : World T) (t : T) (token title : string)
  : string -> bool -> list (string * bool) -> search_end -> Prop :=
| path_found (url : string) (p : bool) (before after : list pyval)
    (issue : pyval) (next : option string) :
    url <> "" ->
    fetch_issues w t url token p = Page (PList (before ++ issue :: after)) next ->
    Forall (fun i => other_title i title) before ->
    has_title issue title ->
    search_path w t token title url p [(url, p)] (Found issue)
| path_exhausted (url : string) (p : bool) (issues : list pyval)
    (next : option string) :
    url <> "" ->
    fetch_issues w t url token p = Page (PList issues) next ->
    Forall (fun i => other_title i title) issues ->
    next = None \/ next = Some "" ->
    search_path w t token title url p [(url, p)] Exhausted
| path_failed (url : string) (p : bool) (text : string)
    (response : option (bool * string)) :
    url <> "" ->
    fetch_issues w t url token p = PageFailed text response ->
    search_path w t token title url p [(url, p)] (Failed text response)
| path_next (url : string) (p : bool) (issues : list pyval) (url' : string)
    (visited : list (string * bool)) (e : search_end) :
    url <> "" ->
    fetch_issues w t url token p = Page (PList issues) (Some url') ->
    Forall (fun i => other_title i title) issues ->
    search_path w t token title url' false visited e ->
    search_path w t token title url p ((url, p) :: visited) e.

(** The requests of a walk. *)
Definition requests (token : string) (visited : list (string * bool))
  : list event :=
  map (fun v => GetIssues (fst v) token (snd v)) visited.

(** What [e.response.text if e.response else str(e)] prints, line 100. *)
Definition listing_error_details (text : string)
  (response : option (bool * string)) : string :=
  match response with
  | Some (true, body) => body
  | _ => text
  end.

(** What the search is specified to log and to return at the end of a
    walk. *)
Definition search_log (e : search_end) : list event :=
  match e with
  | Failed text response =>
      [Stderr ("Error checking for existing GitHub issues: "
               ++ listing_error_details text response)]
  | _ => []
  end.

Definition search_answer (e : search_end) : pyval :=
  match e with
  | Found issue => issue_number issue
  | Exhausted | Failed _ _ => PNone
  end.

(** ** The orchestrator, as the specification describes it *)

(** [details.get(k)] on the mapping of an application. *)
Definition field (d : list (string * pyval)) (k : string) : pyval :=
  match dict_get d k with
  | Some v => v
  | None => PNone
  end.

(** The declared version of an application, line 183:
    [str(details.get("targetRevision", ""))]. *)
Definition declared_version {T : Type} (w : World T) (d : list (string * pyval))
  : string :=
  py_str w (match dict_get d "targetRevision" with
            | Some v => v
            | None => PStr ""
            end).

(** The comparison lines printed for every application whose latest
    version is known, lines 196-200. *)
Definition comparison_lines {T : Type} (w : World T) (vf : value_file)
  (name target_revision : string) (latest_version : pyval) : list event :=
  [Stdout "----------------------------------------";
   Stdout ("Checking: " ++ name ++ " (from " ++ vf_group vf ++ ")");
   Stdout ("  -> Your Version (targetRevision): " ++ target_revision);
   Stdout ("  -> Latest Version Available:      " ++ py_str w latest_version);
   Stdout "----------------------------------------"].

(** The first request of an issue search: the sign that a notification
    has been triggered. *)
Definition search_request (REPO github_token : string) : event :=
  GetIssues (issues_url REPO) github_token true.

(** ** Exit status, as the specification describes it *)


(** The end-of-run message, line 228, and the notice of line 159. *)
Definition end_of_run : event := Stdout (nl ++ "Script finished.").

Definition no_values_files (args : Args) : event :=
  Stdout ("No 'values.yaml' files found in subdirectories of '"
          ++ charts_path args ++ "'. Exiting.").

(** The fatal preconditions of a run, from its command line on: the
    token is absent or empty, the repository variable is unset or empty,
    or the maintainers file is missing. *)
Definition run_precondition_fails {T : Type} (w : World T) (REPO : option string)
  (o : options) : Prop :=
  given_token o = None \/ given_token o = Some ""
  \/ env_truthy REPO = false
  \/ is_file w (or_default (given_maintainers_file o) "MAINTAINERS.yaml") = false.

(** The exit-code rule as the specification words it: a non-zero status
    only on a fatal precondition, and otherwise status 0 after the
    end-of-run message. *)
Definition exits_as_specified {T : Type} (w : World T) (fuel : nat)
  (REPO : option string) (o : options) (t : T) : Prop :=
  let out := main_program w fuel REPO (Options o) t in
  (exit_status (result_of out) <> Some 0%Z -> run_precondition_fails w REPO o)
  /\ (~ run_precondition_fails w REPO o ->
      exit_status (result_of out) = Some 0%Z /\ In end_of_run (trace_of out)).

(** Inputs of the documented shapes. *)







(** [pages_end w t token url p n]: from [url] on, the listing of the
    tracker in state [t] runs out of [next] links, or fails, within [n]
    pages. *)
Inductive pages_end {T : Type} (w : World T) (t : T) (token : string)
  : option string -> bool -> nat -> Prop :=
| pages_end_none (p : bool) (n : nat) : pages_end w t token None p n
| pages_end_empty (p : bool) (n : nat) : pages_end w t token (Some "") p n
| pages_end_failed (url : string) (p : bool) (n : nat) (text : string)
    (response : option (bool * string)) :
    fetch_issues w t url token p = PageFailed text response ->
    pages_end w t token (Some url) p (S n)
| pages_end_page (url : string) (p : bool) (n : nat) (issues : pyval)
    (next : option string) :
    fetch_issues w t url token p = Page issues next ->
    pages_end w t token next false n ->
    pages_end w t token (Some url) p (S n).

(** Every listing of the repository ends within [fuel] pages, whatever
    the state of the tracker. *)
Definition listings_end {T : Type} (w : World T) (fuel : nat)
  (REPO : option string) (args : Args) : Prop :=
  forall t,
    pages_end w t (token args) (Some (issues_url (env_str REPO))) true fuel.

(** ** Idempotence, as the specification describes it *)

(** An open issue titled [title], with a positive number, is met by the
    walk along the listing of the tracker in state [t]. *)
Definition issue_on_file {T : Type} (w : World T) (t : T) (fuel : nat)
  (REPO github_token title : string) : Prop :=
  exists visited issue n,
    search_path w t github_token title (issues_url REPO) true visited (Found issue)
    /\ length visited <= fuel
    /\ issue_number issue = PInt n /\ (0 < n)%Z.

(** Every application of the run that wants an update already has its
    issue on file: the state of the tracker after an earlier run with the
    same upstream versions. *)
Definition all_issues_on_file {T : Type} (w : World T) (t : T) (fuel : nat)
  (REPO : option string) (args : Args) : Prop :=
  forall vf apps name d ev latest,
    In vf (glob_values w (charts_path args)) ->
    load_yaml w (vf_path vf) = FileDoc (PDict apps) ->
    In (name, PDict d) apps ->
    py_truthy (field d "chart") = true ->
    get_latest_helm_version w (field d "repoURL") (field d "chart") (field d "chart") t
      = (ev, t, Ok latest) ->
    py_truthy latest = true ->
    update_wanted latest (declared_version w d) = true ->
    issue_on_file w t fuel (env_str REPO) (token args) (issue_title w name latest).

(** A computation that, started with the tracker in state [t], creates no
    issue and leaves the tracker in that state. *)
Definition creates_nothing {T A : Type} (m : M T A) (t : T) : Prop :=
  tracker_of (m t) = t /\ existsb is_post (trace_of (m t)) = false.

(** ** A concrete world

    The scenario of [tests/test_version_checker.py]: a maintainers file,
    two groups of applications, two chart repositories that answer and
    one that does not, and a tracker that keeps its open issues as a list
    of titles and numbers, shows them all on one page and numbers a new
    issue after the last one. *)

Definition demo_repo : option string := Some "test-owner/test-repo".

Definition demo_args : Args :=
  {| token := "fake-token";
     charts_path := "charts";
     maintainers_file := "MAINTAINERS.yaml" |}.

Definition demo_maintainers : list (string * pyval) :=
  [("default", PList [PStr "gh-user1"]);
   ("firsttest-apps", PList [PStr "gh-user2"])].

Definition cert_manager : list (string * pyval) :=
  [("repoURL", PStr "https://charts.jetstack.io");
   ("chart", PStr "cert-manager");
   ("targetRevision", PStr "v1.18.2")].

Definition invalid_chart : list (string * pyval) :=
  [("repoURL", PStr "https://charts.example.com");
   ("chart", PStr "this-chart-does-not-exists");
   ("targetRevision", PStr "1.1.1")].

Definition argocd : list (string * pyval) :=
  [("repoURL", PStr "https://argoproj.github.io/argo-helm");
   ("chart", PStr "argo-cd");
   ("targetRevision", PStr "8.5.8")].

(** An application whose [targetRevision] is written and left empty. *)
Definition unpinned : list (string * pyval) :=
  [("repoURL", PStr "https://charts.jetstack.io");
   ("chart", PStr "cert-manager");
   ("targetRevision", PNone)].

Definition firsttest : value_file :=
  {| vf_path := "charts/firsttest-apps/values.yaml"; vf_group := "firsttest-apps" |}.

Definition secondtest : value_file :=
  {| vf_path := "charts/secondtest-apps/values.yaml"; vf_group := "secondtest-apps" |}.

Definition index_of (chart newest older : string) : pyval :=
  PDict [("apiVersion", PStr "v1");
         ("entries",
          PDict [(chart, PList [PDict [("name", PStr chart); ("version", PStr newest)];
                                PDict [("name", PStr chart); ("version", PStr older)]])])].

Definition demo_files (path : string) : file_load :=
  if path =? "MAINTAINERS.yaml" then FileDoc (PDict demo_maintainers)
  else if path =? "charts/firsttest-apps/values.yaml" then
    FileDoc (PDict [("certManager", PDict cert_manager);
                    ("invalidChart", PDict invalid_chart)])
  else if path =? "charts/secondtest-apps/values.yaml" then
    FileDoc (PDict [("argocd", PDict argocd)])
  else if path =? "empty.yaml" then FileDoc PNone
  else if path =? "broken.yaml" then FileUnreadable "mapping values are not allowed here"
  else FileMissing "[Errno 2] No such file or directory".

Definition demo_index (url : string) : index_fetch :=
  if url =? "https://charts.jetstack.io/index.yaml" then
    IndexDoc (index_of "cert-manager" "v1.19.1" "v1.18.2")
  else if url =? "https://argoproj.github.io/argo-helm/index.yaml" then
    IndexDoc (index_of "argo-cd" "8.6.2" "8.5.8")
  else IndexFailed "404 Client Error: Not Found" (Some (false, "Not Found")).

Definition issue_json (i : string * Z) : pyval :=
  PDict [("title", PStr (fst i)); ("number", PInt (snd i))].

Definition demo_world : World (list (string * Z)) :=
  {| py_repr := fun _ => "...";
     exn_text := fun e =>
       match e with
       | AttributeError obj attr =>
           "'" ++ py_type_name obj ++ "' object has no attribute '" ++ attr ++ "'"
       | _ => "..."
       end;
     is_file := fun path => path =? "MAINTAINERS.yaml";
     glob_values := fun dir => if dir =? "charts" then [firsttest; secondtest] else [];
     load_yaml := demo_files;
     fetch_index := demo_index;
     fetch_issues := fun t _ _ _ => Page (PList (map issue_json t)) None;
     post_issue := fun t _ _ title _ _ =>
       (Posted, (t ++ [(title, Z.of_nat (S (length t)))])%list) |}.

(** The same world with another listing, and with other chart
    repositories. *)
Definition with_listing {T : Type} (w : World T)
  (listing : T -> string -> string -> bool -> page_fetch) : World T :=
  {| py_repr := py_repr w;
     exn_text := exn_text w;
     is_file := is_file w;
     glob_values := glob_values w;
     load_yaml := load_yaml w;
     fetch_index := fetch_index w;
     fetch_issues := listing;
     post_issue := post_issue w |}.

Definition with_index {T : Type} (w : World T) (index : string -> index_fetch)
  : World T :=
  {| py_repr := py_repr w;
     exn_text := exn_text w;
     is_file := is_file w;
     glob_values := glob_values w;
     load_yaml := load_yaml w;
     fetch_index := index;
     fetch_issues := fetch_issues w;
     post_issue := post_issue w |}.

Definition demo_issues_url : string :=
  "https://api.github.com/repos/test-owner/test-repo/issues".

Definition page2_url : string :=
  "https://api.github.com/repos/test-owner/test-repo/issues?page=2".

(** A listing of two pages, the second of which holds the issue of
    [certManager]. *)
Definition two_pages (url : string) : page_fetch :=
  if url =? demo_issues_url then
    Page (PList [issue_json ("Wrong issue", 111%Z)]) (Some page2_url)
  else
    Page (PList [issue_json ("Some other issue", 124%Z);
                 issue_json ("New Version Available: certManager v1.19.1", 123%Z);
                 issue_json ("New Version Available: certManager v1.19.1", 125%Z)])
         None.

Definition paged_world : World (list (string * Z)) :=
  with_listing demo_world (fun _ url _ _ => two_pages url).

(** A listing whose second page cannot be fetched. *)
Definition second_page_fails (url : string) : page_fetch :=
  if url =? demo_issues_url then
    Page (PList [issue_json ("Wrong issue", 111%Z)]) (Some page2_url)
  else PageFailed "Read timed out." None.

Definition flaky_world : World (list (string * Z)) :=
  with_listing demo_world (fun _ url _ _ => second_page_fails url).

(** A chart repository that answers 200 with a body that is not YAML. *)
Definition html_world : World (list (string * Z)) :=
  with_index demo_world
    (fun _ => IndexNotYaml "mapping values are not allowed here").

(** A run over a charts directory without values files. *)
Definition bare_args : Args :=
  {| token := "fake-token";
     charts_path := "nowhere";
     maintainers_file := "MAINTAINERS.yaml" |}.

(** The tracker after the first run of the scenario. *)
Definition after_first_run : list (string * Z) :=
  tracker_of (main demo_world 1 demo_repo demo_args []).

(** ** Counting and classifying, for the properties of the rest of the
    script *)

(** The create-issue requests of a trace. *)
Definition count_posts (l : list event) : nat := length (filter is_post l).

(** Whether a string ends with [/]. *)
Fixpoint ends_with_slash (s : string) : bool :=
  match s with
  | EmptyString => false
  | String c EmptyString => (c =? "/")%char
  | String _ rest => ends_with_slash rest
  end.

(** [except requests.exceptions.RequestException] *)
Definition is_RequestException (e : py_exn) : bool :=
  match e with
  | RequestException _ _ => true
  | _ => false
  end.

(** What line 129 prints after [if e.response is not None], lines
    124-127. *)
Definition creation_error_details (text : string)
  (response : option (bool * string)) : string :=
  match response with
  | Some (_, body) => body
  | None => text
  end.

(** A computation that sends at most [n] create-issue requests, whatever
    the state of the tracker it starts in. *)
Definition posts_at_most {T A : Type} (n : nat) (m : M T A) : Prop :=
  forall t, count_posts (trace_of (m t)) <= n.

(** A computation all of whose events satisfy [P], whatever the state of
    the tracker it starts in. *)
Definition every_event {T A : Type} (P : event -> Prop) (m : M T A) : Prop :=
  forall t, Forall P (trace_of (m t)).

(** The number of entries of a values file: those of the mapping it
    holds, none when it holds anything else or cannot be loaded. *)
Definition app_count {T : Type} (w : World T) (vf : value_file) : nat :=
  match load_yaml w (vf_path vf) with
  | FileDoc (PDict apps) => length apps
  | _ => 0
  end.

(** A create-issue request as [main] is meant to send them: to the issue
    list of the repository, with the token of the run and a title of the
    fixed form. *)
Definition post_as_configured {T : Type} (w : World T) (REPO github_token : string)
  (e : event) : Prop :=
  match e with
  | PostIssue url token title _ _ =>
      url = issues_url REPO /\ token = github_token
      /\ exists name latest, title = issue_title w name latest
  | _ => True
  end.

(** The same world with other files. *)
Definition with_files {T : Type} (w : World T) (files : string -> file_load)
  : World T :=
  {| py_repr := py_repr w;
     exn_text := exn_text w;
     is_file := is_file w;
     glob_values := glob_values w;
     load_yaml := files;
     fetch_index := fetch_index w;
     fetch_issues := fetch_issues w;
     post_issue := post_issue w |}.

(** A maintainers file with numeric identifiers for one group and a
    [default] that is written and left empty; a values file that holds a
    list, and one that is empty. *)
Definition odd_files (path : string) : file_load :=
  if path =? "MAINTAINERS.yaml" then
    FileDoc (PDict [("default", PNone); ("firsttest-apps", PList [PInt 12345])])
  else if path =? "charts/firsttest-apps/values.yaml" then
    FileDoc (PList [PStr "certManager"])
  else if path =? "charts/secondtest-apps/values.yaml" then FileDoc PNone
  else demo_files path.

Definition odd_world : World (list (string * Z)) := with_files demo_world odd_files.

Definition thirdtest : value_file :=
  {| vf_path := "charts/thirdtest-apps/values.yaml"; vf_group := "thirdtest-apps" |}.

(** A listing that answers with an error object instead of a list, and
    one whose matching issue has no number. *)
Definition error_object_world : World (list (string * Z)) :=
  with_listing demo_world
    (fun _ _ _ _ => Page (PDict [("message", PStr "Bad credentials")]) None).

Definition unnumbered_world : World (list (string * Z)) :=
  with_listing demo_world
    (fun _ _ _ _ =>
       Page (PList [PDict [("title",
                            PStr "New Version Available: certManager v1.19.1")]])
            None).

(** An application without [targetRevision]. *)
Definition undeclared : list (string * pyval) :=
  [("repoURL", PStr "https://charts.jetstack.io");
   ("chart", PStr "cert-manager")].

(** Command lines of the scenario: the one of the test suite, one without
    [--token], and one over a charts directory without values files. *)
Definition demo_usage : string :=
  "usage: version_checker.py [-h] --token TOKEN [--charts-path CHARTS_PATH] [--maintainers-file MAINTAINERS_FILE]".

Definition demo_options : options :=
  {| given_token := Some "fake-token";
     given_charts_path := Some "charts";
     given_maintainers_file := Some "MAINTAINERS.yaml";
     usage := demo_usage;
     prog := "version_checker.py" |}.



(** The UTF-8 encoding of the letter e with an acute accent, U+00E9. *)
Definition e_acute : string :=
  String (ascii_of_nat 195) (String (ascii_of_nat 169) EmptyString).

(** ** The model at work *)

Example rstrip_slash_trailing :
  rstrip_slash "https://argoproj.github.io/argo-helm//"
  = "https://argoproj.github.io/argo-helm"
  /\ rstrip_slash "a/b" = "a/b" /\ rstrip_slash "///" = "".
Proof. repeat split. Qed.

Example py_getitem_samples :
  py_getitem (PList [PInt 1; PInt 2]) (PInt (-1)) = Ok (PInt 2)
  /\ py_getitem (PList []) (PInt 0) = Exc (IndexError (PList []))
  /\ py_getitem (PStr "abc") (PInt 0) = Ok (PStr "a")
  /\ py_getitem PNone (PStr "entries") = Exc (TypeError PNone (PStr "entries"))
  /\ py_getitem (PDict []) (PInt 0) = Exc (KeyError (PInt 0)).
Proof. repeat split. Qed.

Example lookup_version_newest :
  lookup_version (index_of "cert-manager" "v1.19.1" "v1.18.2") (PStr "cert-manager")
  = Ok (PStr "v1.19.1")
  /\ lookup_version (index_of "cert-manager" "v1.19.1" "v1.18.2")
       (PStr "chart-does-not-exist")
     = Exc (KeyError (PStr "chart-does-not-exist")).
Proof. split; reflexivity. Qed.

Example py_join_samples :
  py_join ", " (PList [PStr "user1"; PStr "user2"]) = Ok "user1, user2"
  /\ py_join ", " (PList []) = Ok ""
  /\ py_join ", " PNone = Exc (TypeError PNone PNone)
  /\ py_join ", " (PList [PInt 1]) = Exc (TypeError (PList [PInt 1]) PNone).
Proof. repeat split. Qed.

(** A [str] is iterated and indexed by character, not by byte. *)
Example py_characters :
  chars ("zo" ++ e_acute) = ["z"; "o"; e_acute]
  /\ py_join ", " (PStr ("zo" ++ e_acute)) = Ok ("z, o, " ++ e_acute)
  /\ py_getitem (PStr e_acute) (PInt 0) = Ok (PStr e_acute)
  /\ py_getitem (PStr e_acute) (PInt 1) = Exc (IndexError (PStr e_acute)).
Proof. repeat split. Qed.

(** The first run of the scenario opens one issue for [certManager] and
    one for [argocd], and none for the chart that does not resolve. *)
Example first_run_opens_two_issues :
  after_first_run
  = [("New Version Available: certManager v1.19.1", 1%Z);
     ("New Version Available: argocd 8.6.2", 2%Z)]
  /\ length (filter is_post (trace_of (main demo_world 1 demo_repo demo_args [])))
     = 2
  /\ result_of (main demo_world 1 demo_repo demo_args []) = Ok tt.
Proof. repeat split. Qed.

(** Unfolds the monad's operations in the goal, once the script's own
    functions have been unfolded. *)
Ltac monad_unfold :=
  unfold print, eprint; unfold try_except, bind, lift, ret, raise, emit;
  cbv beta iota.

Section MaintainerLookup.

Context {T : Type} (w : World T).

Lemma get_maintainers_doc (path group : string) (d : list (string * pyval)) (t : T) :
  load_yaml w path = FileDoc (PDict d) ->
  get_maintainers w path group t =
    match dict_get d group with
    | Some v =>
        if py_truthy v then ([], t, Ok v)
        else ([Stdout ("No specific maintainers found for '" ++ group
                       ++ "'. Looking for 'default' maintainers.")], t,
              Ok (match dict_get d "default" with Some a => a | None => PList [] end))
    | None =>
        ([Stdout ("No specific maintainers found for '" ++ group
                  ++ "'. Looking for 'default' maintainers.")], t,
         Ok (match dict_get d "default" with Some a => a | None => PList [] end))
    end.
Proof.
  intros Hload.
  unfold get_maintainers, try_except, bind, open_yaml, lift, print, emit, ret.
  rewrite Hload. simpl.
  destruct (dict_get d group) as [v|]; simpl.
  - destruct (py_truthy v); reflexivity.
  - reflexivity.
Qed.

(** C5.  With a readable maintainers file whose document is a mapping of
    lists: a group that has a non-empty list gets exactly that list; any
    other group gets the list under [default], or the empty list when
    there is no [default].  A missing file, and a file that cannot be read
    or parsed, log one line to stderr and give the empty list; the lookup
    returns normally in every case and makes no request. *)
Theorem get_maintainers_lookup (path group : string) (t : T) :
  (forall d, load_yaml w path = FileDoc (PDict d) -> maintainers_wf d ->
     exists ev,
       get_maintainers w path group t =
         (ev, t,
          Ok (match dict_get d group with
              | Some (PList (x :: l)) => PList (x :: l)
              | _ => match dict_get d "default" with
                     | Some a => a
                     | None => PList []
                     end
              end))
       /\ existsb is_network ev = false)
  /\ (forall text, load_yaml w path = FileMissing text ->
        get_maintainers w path group t =
          ([Stderr ("Error: Maintainers file not found at " ++ path)], t,
           Ok (PList [])))
  /\ (forall text, load_yaml w path = FileUnreadable text ->
        get_maintainers w path group t =
          ([Stderr ("Error reading or parsing maintainers file: " ++ text)], t,
           Ok (PList []))).
Proof.
  split; [|split].
  - intros d Hload Hwf.
    rewrite (get_maintainers_doc _ _ _ _ Hload).
    destruct (dict_get d group) as [v|] eqn:Hg.
    + destruct (Hwf _ _ Hg) as [l ->].
      destruct l as [|x l]; simpl; eexists; split; reflexivity.
    + eexists; split; reflexivity.
  - intros text Hload.
    unfold get_maintainers, try_except, bind, open_yaml.
    rewrite Hload. reflexivity.
  - intros text Hload.
    unfold get_maintainers, try_except, bind, open_yaml.
    rewrite Hload. reflexivity.
Qed.

Lemma get_maintainers_non_mapping (path group : string) (doc : pyval) (t : T) :
  load_yaml w path = FileDoc doc ->
  is_dict doc = false ->
  get_maintainers w path group t =
    ([Stderr ("Error reading or parsing maintainers file: "
              ++ exn_text w (AttributeError doc "get"))], t, Ok (PList [])).
Proof.
  intros Hload Hdoc.
  unfold get_maintainers, try_except, bind, open_yaml, lift.
  rewrite Hload.
  destruct doc; simpl in *; try discriminate; reflexivity.
Qed.

(** The lookup always returns, leaves the tracker alone and makes no
    request. *)
Lemma get_maintainers_returns (path group : string) (t : T) :
  exists ev assignees,
    get_maintainers w path group t = (ev, t, Ok assignees)
    /\ existsb is_network ev = false.
Proof.
  destruct (load_yaml w path) as [doc|text|text] eqn:Hload.
  - destruct (is_dict doc) eqn:Hdoc.
    + destruct doc; try discriminate.
      rewrite (get_maintainers_doc _ _ _ _ Hload).
      destruct (dict_get d group) as [v|]; [destruct (py_truthy v)|];
        do 2 eexists; split; reflexivity.
    + rewrite (get_maintainers_non_mapping _ _ _ _ Hload Hdoc).
      do 2 eexists; split; reflexivity.
  - unfold get_maintainers, try_except, bind, open_yaml. rewrite Hload.
    do 2 eexists; split; reflexivity.
  - unfold get_maintainers, try_except, bind, open_yaml. rewrite Hload.
    do 2 eexists; split; reflexivity.
Qed.

(** C10.  When the maintainers file parses to something that is not a
    mapping, the [.get] on it raises [AttributeError], the generic handler
    catches it, one line goes to stderr and the lookup returns the empty
    list. *)
Theorem get_maintainers_not_a_mapping (path group : string) (doc : pyval) (t : T) :
  load_yaml w path = FileDoc doc ->
  is_dict doc = false ->
  py_get doc group (PList []) = Exc (AttributeError doc "get")
  /\ get_maintainers w path group t =
       ([Stderr ("Error reading or parsing maintainers file: "
                 ++ exn_text w (AttributeError doc "get"))], t, Ok (PList [])).
Proof.
  intros Hload Hdoc. split.
  - destruct doc; simpl in *; try discriminate; reflexivity.
  - exact (get_maintainers_non_mapping path group doc t Hload Hdoc).
Qed.

End MaintainerLookup.

(** ** Upstream version resolver *)

Section Resolver.

Context {T : Type} (w : World T).

Lemma py_getitem_error (obj key : pyval) (e : py_exn) :
  py_getitem obj key = Exc e -> is_lookup_error e = true.
Proof.
  unfold py_getitem; intros H.
  destruct obj; try (inversion H; reflexivity);
    destruct key; try (inversion H; reflexivity);
    repeat match type of H with
           | context [match ?x with _ => _ end] => destruct x
           end; inversion H; reflexivity.
Qed.

Lemma py_getitem_fuel (obj key : pyval) : py_getitem obj key <> OutOfFuel.
Proof.
  unfold py_getitem; intros H.
  destruct obj; try discriminate; destruct key; try discriminate;
    repeat match type of H with
           | context [match ?x with _ => _ end] => destruct x
           end; discriminate.
Qed.

Lemma lookup_version_error (doc chart_name : pyval) (e : py_exn) :
  lookup_version doc chart_name = Exc e -> is_lookup_error e = true.
Proof.
  unfold lookup_version, rbind; intros H.
  repeat match type of H with
         | context [match py_getitem ?a ?b with _ => _ end] =>
             let E := fresh "E" in
             destruct (py_getitem a b) eqn:E;
             try discriminate;
             try (inversion H; subst; eapply py_getitem_error; eassumption)
         end.
  all: try (eapply py_getitem_error; eassumption).
Qed.

Lemma lookup_version_fuel (doc chart_name : pyval) :
  lookup_version doc chart_name <> OutOfFuel.
Proof.
  unfold lookup_version, rbind; intros H.
  repeat match type of H with
         | context [match py_getitem ?a ?b with _ => _ end] =>
             let E := fresh "E" in
             destruct (py_getitem a b) eqn:E;
             try discriminate;
             try (eapply py_getitem_fuel; eassumption)
         end.
  all: try (eapply py_getitem_fuel; eassumption).
Qed.

(** The three ways a download can end, for a repository URL that passes
    the guard of line 52. *)
Lemma get_latest_helm_version_fetch (s : string) (chart_name repoPath : pyval) (t : T) :
  (s =? "") = false -> (s =? "null") = false ->
  get_latest_helm_version w (PStr s) chart_name repoPath t =
    match fetch_index w (index_url_of s) with
    | IndexFailed text response =>
        ([GetIndex (index_url_of s);
          Stderr ("Error: Failed to download index.yaml from " ++ index_url_of s
                  ++ ". Details: " ++ text)], t, Ok PNone)
    | IndexNotYaml text => ([GetIndex (index_url_of s)], t, Exc (YAMLError text))
    | IndexDoc doc =>
        match lookup_version doc chart_name with
        | Ok v => ([GetIndex (index_url_of s)], t, Ok v)
        | Exc e =>
            ([GetIndex (index_url_of s);
              Stderr ("Error: Could not parse version for chart '"
                      ++ py_str w chart_name ++ "' from " ++ index_url_of s
                      ++ ". Details: " ++ str_exn w e)], t, Ok PNone)
        | OutOfFuel => ([GetIndex (index_url_of s)], t, OutOfFuel)
        end
    end.
Proof.
  intros Hne Hnull.
  unfold get_latest_helm_version, py_truthy, py_eq_str.
  rewrite Hne, Hnull. cbn [negb orb].
  unfold try_except, bind, lift, download_index, emit, raise, ret, py_rstrip_slash.
  fold (index_url_of s).
  destruct (fetch_index w (index_url_of s)) as [text response|text|doc];
    try reflexivity.
  simpl.
  destruct (lookup_version doc chart_name) as [v|e|] eqn:Hl.
  - unfold lookup_version, rbind in Hl.
    destruct (py_getitem doc (PStr "entries")) as [entries| |]; try discriminate.
    destruct (py_getitem entries chart_name) as [releases| |]; try discriminate.
    destruct (py_getitem releases (PInt 0)) as [newest| |]; try discriminate.
    simpl. rewrite Hl. reflexivity.
  - pose proof (lookup_version_error _ _ _ Hl) as He.
    unfold lookup_version, rbind in Hl.
    destruct (py_getitem doc (PStr "entries")) as [entries|e1|] eqn:E1;
      [|inversion Hl; subst; destruct e; try discriminate; reflexivity|discriminate].
    destruct (py_getitem entries chart_name) as [releases|e2|] eqn:E2;
      [|inversion Hl; subst; destruct e; try discriminate; reflexivity|discriminate].
    destruct (py_getitem releases (PInt 0)) as [newest|e3|] eqn:E3;
      [|inversion Hl; subst; destruct e; try discriminate; reflexivity|discriminate].
    simpl. rewrite Hl. destruct e; try discriminate; reflexivity.
  - exfalso. exact (lookup_version_fuel _ _ Hl).
Qed.

(** C6.  A repository URL that is absent from the entry (so that
    [details.get("repoURL")] is [None]), empty, or the string [null] makes
    the resolver return [None] at once: one warning on stderr and no
    request. *)
Theorem get_latest_helm_version_invalid_url
  (repo_url chart_name repoPath : pyval) (t : T) :
  (forall d, dict_get d "repoURL" = None ->
     py_get (PDict d) "repoURL" PNone = Ok PNone)
  /\ (repo_url = PNone \/ repo_url = PStr "" \/ repo_url = PStr "null" ->
      get_latest_helm_version w repo_url chart_name repoPath t =
        ([Stderr ("Warning: Invalid or missing repoURL for chart '"
                  ++ py_str w chart_name ++ "'. Skipping.")], t, Ok PNone)
      /\ existsb is_network
           (trace_of (get_latest_helm_version w repo_url chart_name repoPath t))
         = false).
Proof.
  split.
  - intros d Hd. simpl. rewrite Hd. reflexivity.
  - intros [-> | [-> | ->]]; split; reflexivity.
Qed.

End Resolver.

(** ** Issue tracker client *)

Section IssueSearch.

Context {T : Type} (w : World T).

Lemma issues_url_nonempty (repo : string) : (issues_url repo =? "") = false.
Proof. reflexivity. Qed.

Lemma other_title_get (issue : pyval) (title : string) :
  other_title issue title ->
  exists v, py_get issue "title" PNone = Ok v /\ py_eq_str v title = false.
Proof.
  intros [d [-> Hd]]. simpl.
  destruct (dict_get d "title") as [v|]; eexists; split; try reflexivity.
  destruct v; try reflexivity. simpl.
  apply String.eqb_neq. intros ->. apply Hd. reflexivity.
Qed.

Lemma scan_issues_none (issues : list pyval) (title : string) :
  Forall (fun i => other_title i title) issues ->
  scan_issues issues title = Ok None.
Proof.
  induction 1 as [|issue rest Hi _ IH]; simpl.
  - reflexivity.
  - destruct (other_title_get _ _ Hi) as [v [-> Hv]]. simpl.
    rewrite Hv. exact IH.
Qed.

Lemma scan_issues_first (before after : list pyval) (issue : pyval) (title : string) :
  Forall (fun i => other_title i title) before ->
  has_title issue title ->
  scan_issues (before ++ issue :: after) title = Ok (Some (issue_number issue)).
Proof.
  intros Hb [d [-> Hd]].
  induction Hb as [|i rest Hi _ IH]; simpl.
  - rewrite Hd. simpl. rewrite String.eqb_refl. reflexivity.
  - destruct (other_title_get _ _ Hi) as [v [-> Hv]]. simpl.
    rewrite Hv. exact IH.
Qed.

(** One round of the loop on a page that is a list of issues. *)
Lemma issue_round_page (url token title : string) (p : bool)
  (issues : list pyval) (next : option string) (found : option pyval) (t : T) :
  fetch_issues w t url token p = Page (PList issues) next ->
  scan_issues issues title = Ok found ->
  issue_round w url token title p t =
    ([GetIssues url token p], t,
     Ok (match found with Some number => Return number | None => Next next end)).
Proof.
  intros Hf Hs.
  unfold issue_round, get_issue_page. monad_unfold. rewrite Hf. simpl.
  rewrite Hs. destruct found; reflexivity.
Qed.

(** One round of the loop on a request that fails. *)
Lemma issue_round_failed (url token title : string) (p : bool)
  (text : string) (response : option (bool * string)) (t : T) :
  fetch_issues w t url token p = PageFailed text response ->
  issue_round w url token title p t =
    ([GetIssues url token p;
      Stderr ("Error checking for existing GitHub issues: "
              ++ listing_error_details text response)], t, Ok (Return PNone)).
Proof.
  intros Hf.
  unfold issue_round, get_issue_page. monad_unfold. rewrite Hf. simpl.
  destruct response as [[[] body]|]; reflexivity.
Qed.

(** The loop follows a walk to its end, given one unit of fuel per page,
    and leaves the tracker as it found it. *)
Lemma issue_loop_follows (token title : string) (t : T) (url : string) (p : bool)
  (visited : list (string * bool)) (e : search_end) :
  search_path w t token title url p visited e ->
  forall fuel, length visited <= fuel ->
  issue_loop w fuel (Some url) token title p t =
    ((requests token visited ++ search_log e)%list, t, Ok (search_answer e)).
Proof.
  induction 1 as [url p before after issue next Hu Hf Hb Hi
                 |url p issues next Hu Hf Hn Hnext
                 |url p text response Hu Hf
                 |url p issues url' visited e Hu Hf Hn Hpath IH];
    intros fuel Hfuel; (destruct fuel as [|fuel]; [simpl in Hfuel; lia|]);
    simpl issue_loop; apply String.eqb_neq in Hu; rewrite Hu; unfold bind.
  - rewrite (issue_round_page _ _ _ _ _ _ _ _ Hf (scan_issues_first _ _ _ _ Hb Hi)).
    reflexivity.
  - rewrite (issue_round_page _ _ _ _ _ _ _ _ Hf (scan_issues_none _ _ Hn)).
    destruct Hnext as [-> | ->]; destruct fuel; reflexivity.
  - rewrite (issue_round_failed _ _ _ _ _ _ _ Hf). reflexivity.
  - rewrite (issue_round_page _ _ _ _ _ _ _ _ Hf (scan_issues_none _ _ Hn)).
    simpl in Hfuel. rewrite (IH fuel) by lia. reflexivity.
Qed.

(** C4.  A search for [title] sends its first request to the issue list
    of the repository and then follows the [next] links.  When the walk
    meets a page holding an issue with exactly that title, the search has
    requested the pages up to that one and no other, and returns the
    number of the first such issue in page order; when the walk runs out
    of pages, it has requested every page and returns [None].  Titles
    that differ only in case do not match. *)
Theorem check_existing_issue_walk (fuel : nat) (repo token title : string) (t : T)
  (visited : list (string * bool)) :
  length visited <= fuel ->
  (forall issue,
     search_path w t token title (issues_url repo) true visited (Found issue) ->
     check_existing_issue w fuel repo token title t =
       (requests token visited, t, Ok (issue_number issue)))
  /\ (search_path w t token title (issues_url repo) true visited Exhausted ->
      check_existing_issue w fuel repo token title t =
        (requests token visited, t, Ok PNone))
  /\ scan_issues [PDict [("title", PStr "new version"); ("number", PInt 7)]]
       "New Version" = Ok None.
Proof.
  intros Hfuel. split; [|split].
  - intros issue Hpath. unfold check_existing_issue.
    rewrite (issue_loop_follows _ _ _ _ _ _ _ Hpath fuel Hfuel).
    simpl. rewrite app_nil_r. reflexivity.
  - intros Hpath. unfold check_existing_issue.
    rewrite (issue_loop_follows _ _ _ _ _ _ _ Hpath fuel Hfuel).
    simpl. rewrite app_nil_r. reflexivity.
  - reflexivity.
Qed.

End IssueSearch.

(** ** Orchestrator *)

Section Orchestrator.

Context {T : Type} (w : World T).

Lemma bind_ok {A B} (m : M T A) (k : A -> M T B) (t t1 : T)
  (ev : list event) (a : A) :
  m t = (ev, t1, Ok a) ->
  bind m k t = ((ev ++ trace_of (k a t1))%list, tracker_of (k a t1),
                result_of (k a t1)).
Proof.
  intros H. unfold bind. rewrite H.
  destruct (k a t1) as [[ev2 t2] r]. reflexivity.
Qed.

Lemma outcome_eta {A} (o : list event * T * result A) :
  o = (trace_of o, tracker_of o, result_of o).
Proof. destruct o as [[ev t] r]. reflexivity. Qed.

Lemma py_eq_str_false (v : pyval) (s : string) :
  py_eq_str v s = false <-> v <> PStr s.
Proof.
  destruct v; simpl; try (split; [discriminate|reflexivity]).
  rewrite String.eqb_neq. split; intros H; congruence.
Qed.

Lemma update_wanted_true (latest : pyval) (target : string) :
  update_wanted latest target = true <-> latest <> PStr target /\ target <> "".
Proof.
  unfold update_wanted.
  rewrite andb_true_iff, !negb_true_iff, py_eq_str_false, String.eqb_neq.
  reflexivity.
Qed.

(** The resolver leaves the tracker alone and sends it nothing. *)
Lemma get_latest_helm_version_quiet (repo_url chart_name repoPath : pyval) (t : T) :
  tracker_of (get_latest_helm_version w repo_url chart_name repoPath t) = t
  /\ existsb is_issue_request
       (trace_of (get_latest_helm_version w repo_url chart_name repoPath t)) = false.
Proof.
  destruct (negb (py_truthy repo_url) || py_eq_str repo_url "null") eqn:Hguard.
  - unfold get_latest_helm_version. rewrite Hguard. split; reflexivity.
  - apply orb_false_iff in Hguard. destruct Hguard as [Ht Hn].
    apply negb_false_iff in Ht.
    destruct repo_url as [| | | |s| |];
      try (unfold get_latest_helm_version; rewrite Ht, Hn; split; reflexivity).
    simpl in Ht, Hn. apply negb_true_iff in Ht.
    rewrite (get_latest_helm_version_fetch w s chart_name repoPath t Ht Hn).
    destruct (fetch_index w (index_url_of s)) as [text response|text|doc];
      try (split; reflexivity).
    destruct (lookup_version doc chart_name); split; reflexivity.
Qed.

(** An application that is a mapping with a chart name and whose latest
    version resolves is compared and handed to [notify]. *)
Lemma process_app_compares (fuel : nat) (REPO github_token mf : string)
  (vf : value_file) (name : string) (d : list (string * pyval))
  (latest : pyval) (ev0 : list event) (t t0 : T) :
  py_truthy (field d "chart") = true ->
  get_latest_helm_version w (field d "repoURL") (field d "chart") (field d "chart") t
    = (ev0, t0, Ok latest) ->
  py_truthy latest = true ->
  process_app w fuel REPO github_token mf vf name (PDict d) t =
    let o := notify w fuel REPO github_token mf vf name (declared_version w d)
                    latest t0 in
    ((ev0 ++ comparison_lines w vf name (declared_version w d) latest
          ++ trace_of o)%list, tracker_of o, result_of o).
Proof.
  intros Hchart Hlatest Htruthy.
  unfold process_app. cbn [is_dict negb py_get].
  fold (field d "repoURL"). fold (field d "chart").
  unfold declared_version.
  monad_unfold. rewrite Hchart. cbn [negb orb].
  rewrite Hlatest, Htruthy. cbn [negb]. cbv zeta.
  destruct (notify w fuel REPO github_token mf vf name _ latest t0) as [[ev t'] r].
  reflexivity.
Qed.

Lemma notify_not_wanted (fuel : nat) (REPO github_token mf : string)
  (vf : value_file) (name target : string) (latest : pyval) (t : T) :
  update_wanted latest target = false ->
  notify w fuel REPO github_token mf vf name target latest t = ([], t, Ok tt).
Proof. intros H. unfold notify. rewrite H. reflexivity. Qed.

Lemma bind_trace {A B} (m : M T A) (k : A -> M T B) (t : T) :
  exists ev, trace_of (bind m k t) = (trace_of (m t) ++ ev)%list.
Proof.
  unfold bind. destruct (m t) as [[ev1 t1] [a|e|]]; cbn [trace_of fst].
  - destruct (k a t1) as [[ev2 t2] r]. exists ev2. reflexivity.
  - exists []. rewrite app_nil_r. reflexivity.
  - exists []. rewrite app_nil_r. reflexivity.
Qed.

Lemma try_except_trace {A} (body : M T A) (h : py_exn -> option (M T A)) (t : T) :
  exists ev, trace_of (try_except body h t) = (trace_of (body t) ++ ev)%list.
Proof.
  unfold try_except. destruct (body t) as [[ev1 t1] [a|e|]]; cbn [trace_of fst];
    try (exists []; rewrite app_nil_r; reflexivity).
  destruct (h e) as [handler|].
  - destruct (handler t1) as [[ev2 t2] r]. exists ev2. reflexivity.
  - exists []. rewrite app_nil_r. reflexivity.
Qed.

(** With fuel for one page, a search starts with its first request. *)
Lemma check_existing_issue_starts (fuel : nat) (repo token title : string) (t : T) :
  1 <= fuel ->
  exists ev,
    trace_of (check_existing_issue w fuel repo token title t)
    = search_request repo token :: ev.
Proof.
  intros Hfuel. destruct fuel as [|fuel]; [lia|].
  unfold check_existing_issue. simpl issue_loop.
  match goal with
  | |- context [trace_of (bind ?m ?k t)] =>
      destruct (bind_trace m k t) as [ev1 ->]
  end.
  unfold issue_round.
  match goal with
  | |- context [trace_of (try_except ?b ?h t)] =>
      destruct (try_except_trace b h t) as [ev2 ->]
  end.
  match goal with
  | |- context [trace_of (bind ?m ?k t)] =>
      destruct (bind_trace m k t) as [ev3 ->]
  end.
  unfold get_issue_page.
  match goal with
  | |- context [trace_of (bind ?m ?k t)] =>
      destruct (bind_trace m k t) as [ev4 ->]
  end.
  eexists. reflexivity.
Qed.

Lemma notify_wanted_starts (fuel : nat) (REPO github_token mf : string)
  (vf : value_file) (name target : string) (latest : pyval) (t : T) :
  1 <= fuel ->
  update_wanted latest target = true ->
  exists ev,
    trace_of (notify w fuel REPO github_token mf vf name target latest t)
    = search_request REPO github_token :: ev.
Proof.
  intros Hfuel H. unfold notify. rewrite H. cbv zeta.
  match goal with
  | |- context [trace_of (bind ?m ?k t)] =>
      destruct (bind_trace m k t) as [ev1 ->]
  end.
  destruct (check_existing_issue_starts fuel REPO github_token
              (issue_title w name latest) t Hfuel) as [ev ->].
  eexists. reflexivity.
Qed.

Lemma existsb_false_not_In (f : event -> bool) (l : list event) (e : event) :
  existsb f l = false -> f e = true -> ~ In e l.
Proof.
  intros Hl He Hin.
  assert (existsb f l = true) by (apply existsb_exists; exists e; auto).
  congruence.
Qed.

(** Whether the search is started tells whether the update is wanted. *)
Lemma process_app_trigger (fuel : nat) (REPO github_token mf : string)
  (vf : value_file) (name : string) (d : list (string * pyval))
  (latest : pyval) (ev0 : list event) (t t0 : T) :
  1 <= fuel ->
  py_truthy (field d "chart") = true ->
  get_latest_helm_version w (field d "repoURL") (field d "chart") (field d "chart") t
    = (ev0, t0, Ok latest) ->
  py_truthy latest = true ->
  In (search_request REPO github_token)
     (trace_of (process_app w fuel REPO github_token mf vf name (PDict d) t))
  <-> update_wanted latest (declared_version w d) = true.
Proof.
  intros Hfuel Hchart Hlatest Htruthy.
  rewrite (process_app_compares fuel REPO github_token mf vf name d latest ev0 t t0
             Hchart Hlatest Htruthy).
  cbv zeta. unfold trace_of at 1. cbn [fst].
  pose proof (get_latest_helm_version_quiet
                (field d "repoURL") (field d "chart") (field d "chart") t) as [_ Hq].
  rewrite Hlatest in Hq. cbn [trace_of fst] in Hq.
  rewrite !in_app_iff.
  destruct (update_wanted latest (declared_version w d)) eqn:Hw.
  - split; [reflexivity|intros _].
    destruct (notify_wanted_starts fuel REPO github_token mf vf name _ latest t0
                Hfuel Hw) as [ev Hev].
    right; right. rewrite Hev. left. reflexivity.
  - split; [|discriminate].
    rewrite (notify_not_wanted _ _ _ _ _ _ _ _ _ Hw).
    intros [Hin | [Hin | Hin]].
    + exfalso.
      exact (existsb_false_not_In is_issue_request ev0
               (search_request REPO github_token) Hq eq_refl Hin).
    + simpl in Hin. repeat (destruct Hin as [Hin|Hin]; [discriminate|]).
      destruct Hin.
    + destruct Hin.
Qed.

(** C1.  For an application that reaches the comparison (a mapping with a
    chart name whose latest version resolved), the issue search is started
    exactly when the latest version is not the declared version as a
    string and the declared version is not empty.  The truth table of the
    specification: declared empty and latest v2, no; both v1, no;
    declared v1 and latest v2, yes. *)
Theorem notification_trigger (fuel : nat) (REPO github_token mf : string)
  (vf : value_file) (name : string) (d : list (string * pyval))
  (latest : pyval) (ev0 : list event) (t t0 : T) :
  1 <= fuel ->
  py_truthy (field d "chart") = true ->
  get_latest_helm_version w (field d "repoURL") (field d "chart") (field d "chart") t
    = (ev0, t0, Ok latest) ->
  py_truthy latest = true ->
  (In (search_request REPO github_token)
      (trace_of (process_app w fuel REPO github_token mf vf name (PDict d) t))
   <-> latest <> PStr (declared_version w d) /\ declared_version w d <> "")
  /\ update_wanted (PStr "v2") "" = false
  /\ update_wanted (PStr "v1") "v1" = false
  /\ update_wanted (PStr "v2") "v1" = true.
Proof.
  intros Hfuel Hchart Hlatest Htruthy.
  split; [|repeat split].
  rewrite <- update_wanted_true.
  exact (process_app_trigger fuel REPO github_token mf vf name d latest ev0 t t0
           Hfuel Hchart Hlatest Htruthy).
Qed.

(** C9.  A [targetRevision] that is present and null is declared as the
    four-character string [None]; it is not empty, so the application
    triggers a notification exactly when its latest version is not the
    string [None]. *)
Theorem null_target_revision (fuel : nat) (REPO github_token mf : string)
  (vf : value_file) (name : string) (d : list (string * pyval))
  (latest : pyval) (ev0 : list event) (t t0 : T) :
  dict_get d "targetRevision" = Some PNone ->
  1 <= fuel ->
  py_truthy (field d "chart") = true ->
  get_latest_helm_version w (field d "repoURL") (field d "chart") (field d "chart") t
    = (ev0, t0, Ok latest) ->
  py_truthy latest = true ->
  declared_version w d = "None"
  /\ String.length (declared_version w d) = 4
  /\ (In (search_request REPO github_token)
         (trace_of (process_app w fuel REPO github_token mf vf name (PDict d) t))
      <-> latest <> PStr "None").
Proof.
  intros Hnull Hfuel Hchart Hlatest Htruthy.
  assert (Hd : declared_version w d = "None")
    by (unfold declared_version; rewrite Hnull; reflexivity).
  split; [exact Hd|]. split; [rewrite Hd; reflexivity|].
  rewrite (process_app_trigger fuel REPO github_token mf vf name d latest ev0 t t0
             Hfuel Hchart Hlatest Htruthy).
  rewrite update_wanted_true, Hd. split.
  - intros [H _]. exact H.
  - intros H. split; [exact H|discriminate].
Qed.

(** What [create_github_issue] does when the assignees can be joined. *)
Lemma create_github_issue_joined (repo token title body joined : string)
  (assignees : pyval) (t : T) :
  py_join ", " assignees = Ok joined ->
  create_github_issue w repo token title body assignees t =
    match post_issue w t (issues_url repo) token title body assignees with
    | (Posted, t') =>
        ([PostIssue (issues_url repo) token title body assignees;
          Stdout ("Successfully created issue '" ++ title ++ "' and assigned to: "
                  ++ joined)], t', Ok tt)
    | (PostFailed text response, t') =>
        ([PostIssue (issues_url repo) token title body assignees;
          Stderr ("Error creating GitHub issue '" ++ title ++ "': "
                  ++ match response with Some (_, b) => b | None => text end)],
         t', Ok tt)
    end.
Proof.
  intros Hjoin. unfold create_github_issue, send_issue. monad_unfold.
  destruct (post_issue w t (issues_url repo) token title body assignees)
    as [[text response|] t'].
  - destruct response as [[ok b]|]; reflexivity.
  - rewrite Hjoin. reflexivity.
Qed.

(** What [open_issue] does when the maintainers can be joined: it sends
    the create-issue request and returns. *)
Lemma open_issue_joined (REPO github_token mf : string) (vf : value_file)
  (name target title joined : string) (latest assignees : pyval)
  (evm : list event) (t : T) :
  get_maintainers w mf (vf_group vf) t = (evm, t, Ok assignees) ->
  py_join ", " assignees = Ok joined ->
  exists ev1 ev2 t',
    open_issue w REPO github_token mf vf name target title latest t =
      ((ev1 ++ PostIssue (issues_url REPO) github_token title
                 (issue_body w REPO (vf_path vf) name target latest) assignees
            :: ev2)%list, t', Ok tt)
    /\ existsb is_post ev1 = false /\ existsb is_network ev2 = false
    /\ existsb is_network evm = existsb is_network ev1.
Proof.
  intros Hm Hjoin. unfold open_issue.
  assert (Hp : forall l, existsb is_network l = false -> existsb is_post l = false).
  { induction l as [|e l IH]; simpl; [reflexivity|].
    intros H. apply orb_false_iff in H. destruct H as [He Hl].
    rewrite (IH Hl). destruct e; try discriminate; reflexivity. }
  destruct (get_maintainers_returns w mf (vf_group vf) t) as [evm' [a' [Hm' Hnet]]].
  rewrite Hm in Hm'. inversion Hm'; subst evm' a'. clear Hm'.
  set (mid := if py_truthy assignees
              then [Stdout ("Found maintainers for '" ++ vf_group vf ++ "': "
                            ++ joined)]
              else []).
  assert (Hmid : (if py_truthy assignees
                  then joined <- lift (py_join ", " assignees) ;;
                       print ("Found maintainers for '" ++ vf_group vf ++ "': "
                              ++ joined)
                  else ret tt) t = (mid, t, Ok tt)).
  { unfold mid. destruct (py_truthy assignees); [|reflexivity].
    monad_unfold. rewrite Hjoin. reflexivity. }
  rewrite (bind_ok _ _ t t _ tt eq_refl).
  rewrite (bind_ok _ _ t t evm assignees Hm).
  rewrite (bind_ok _ _ t t mid tt Hmid).
  rewrite (create_github_issue_joined REPO github_token title _ joined assignees t Hjoin).
  exists (Stdout ("Found new version for " ++ name ++ "! Creating issue...")
          :: evm ++ mid)%list.
  destruct (post_issue w t (issues_url REPO) github_token title _ assignees)
    as [[text response|] t']; cbn [trace_of tracker_of result_of fst snd];
    eexists; exists t';
    (split; [cbn [app]; rewrite <- app_assoc; reflexivity|]);
    (split; [cbn [existsb is_post]; rewrite existsb_app, (Hp _ Hnet);
             unfold mid; destruct (py_truthy assignees); reflexivity|]);
    (split; [reflexivity|]);
    cbn [existsb is_network]; rewrite existsb_app;
    unfold mid; destruct (py_truthy assignees); cbn;
    rewrite ?orb_false_r; reflexivity.
Qed.

(** After a search that follows a walk to its end, [notify] reports the
    issue it was given, or opens one when it was given nothing. *)
Lemma notify_after_search (fuel : nat) (REPO github_token mf : string)
  (vf : value_file) (name target : string) (latest : pyval) (t : T)
  (visited : list (string * bool)) (e : search_end) :
  update_wanted latest target = true ->
  search_path w t github_token (issue_title w name latest) (issues_url REPO) true
              visited e ->
  length visited <= fuel ->
  notify w fuel REPO github_token mf vf name target latest t =
    if py_truthy (search_answer e) then
      ((requests github_token visited ++ search_log e
        ++ [Stdout ("Issue #" ++ py_str w (search_answer e) ++ " for '"
                    ++ issue_title w name latest ++ "' already exists. Skipping.")])%list,
       t, Ok tt)
    else
      let o := open_issue w REPO github_token mf vf name target
                          (issue_title w name latest) latest t in
      ((requests github_token visited ++ search_log e ++ trace_of o)%list,
       tracker_of o, result_of o).
Proof.
  intros Hw Hpath Hfuel. unfold notify. rewrite Hw. cbv zeta.
  unfold check_existing_issue.
  rewrite (bind_ok _ _ t t _ _
             (issue_loop_follows w github_token _ t _ true visited e Hpath fuel Hfuel)).
  destruct (py_truthy (search_answer e)); cbn [negb];
    cbn [trace_of tracker_of result_of fst snd print emit];
    rewrite <- app_assoc; reflexivity.
Qed.

Lemma requests_no_post (token : string) (visited : list (string * bool)) :
  existsb is_post (requests token visited) = false.
Proof. induction visited as [|v l IH]; simpl; auto. Qed.

Lemma no_issue_request_no_post (l : list event) :
  existsb is_issue_request l = false -> existsb is_post l = false.
Proof.
  induction l as [|e l IH]; simpl; [reflexivity|].
  intros H. apply orb_false_iff in H. destruct H as [He Hl].
  rewrite (IH Hl). destruct e; try discriminate; reflexivity.
Qed.

(** An application whose issue is already open is reported and left
    alone. *)
Lemma process_app_existing_issue (fuel : nat) (REPO github_token mf : string)
  (vf : value_file) (name : string) (d : list (string * pyval))
  (latest : pyval) (ev0 : list event) (t t0 : T)
  (visited : list (string * bool)) (issue : pyval) (n : Z) :
  py_truthy (field d "chart") = true ->
  get_latest_helm_version w (field d "repoURL") (field d "chart") (field d "chart") t
    = (ev0, t0, Ok latest) ->
  py_truthy latest = true ->
  update_wanted latest (declared_version w d) = true ->
  search_path w t0 github_token (issue_title w name latest) (issues_url REPO) true
              visited (Found issue) ->
  length visited <= fuel ->
  issue_number issue = PInt n -> (0 < n)%Z ->
  process_app w fuel REPO github_token mf vf name (PDict d) t =
    ((ev0 ++ comparison_lines w vf name (declared_version w d) latest
      ++ requests github_token visited
      ++ [Stdout ("Issue #" ++ str_of_Z n ++ " for '" ++ issue_title w name latest
                  ++ "' already exists. Skipping.")])%list, t, Ok tt)
  /\ existsb is_post
       (trace_of (process_app w fuel REPO github_token mf vf name (PDict d) t))
     = false.
Proof.
  intros Hchart Hlatest Htruthy Hw Hpath Hfuel Hn Hpos.
  pose proof (get_latest_helm_version_quiet
                (field d "repoURL") (field d "chart") (field d "chart") t) as [Ht Hq].
  rewrite Hlatest in Ht, Hq. cbn [trace_of tracker_of fst snd] in Ht, Hq. subst t0.
  assert (Heq : process_app w fuel REPO github_token mf vf name (PDict d) t =
    ((ev0 ++ comparison_lines w vf name (declared_version w d) latest
      ++ requests github_token visited
      ++ [Stdout ("Issue #" ++ str_of_Z n ++ " for '" ++ issue_title w name latest
                  ++ "' already exists. Skipping.")])%list, t, Ok tt)).
  { rewrite (process_app_compares fuel REPO github_token mf vf name d latest ev0 t t
               Hchart Hlatest Htruthy).
    rewrite (notify_after_search fuel REPO github_token mf vf name _ latest t
               visited (Found issue) Hw Hpath Hfuel).
    cbn [search_answer search_log]. rewrite Hn.
    assert (Hz : py_truthy (PInt n) = true)
      by (simpl; apply negb_true_iff, Z.eqb_neq; lia).
    rewrite Hz. reflexivity. }
  split; [exact Heq|].
  rewrite Heq. cbn [trace_of fst].
  rewrite !existsb_app, (no_issue_request_no_post _ Hq), requests_no_post.
  reflexivity.
Qed.

(** C3.  When the request for some page of the listing fails, the search
    logs the failure and returns [None]; [notify] then runs the branch
    that opens an issue, exactly as after a search that found nothing, so
    that the create-issue request is sent (the maintainers of the group
    being identifiers that can be joined) and the application is neither
    skipped nor the run aborted. *)
Theorem listing_failure_opens_issue (fuel : nat) (REPO github_token mf : string)
  (vf : value_file) (name target : string) (latest : pyval) (t : T)
  (visited : list (string * bool)) (text : string)
  (response : option (bool * string)) :
  length visited <= fuel ->
  search_path w t github_token (issue_title w name latest) (issues_url REPO) true
              visited (Failed text response) ->
  check_existing_issue w fuel REPO github_token (issue_title w name latest) t =
    ((requests github_token visited
      ++ [Stderr ("Error checking for existing GitHub issues: "
                  ++ listing_error_details text response)])%list, t, Ok PNone)
  /\ (update_wanted latest target = true ->
      (let o := open_issue w REPO github_token mf vf name target
                           (issue_title w name latest) latest t in
       notify w fuel REPO github_token mf vf name target latest t =
         ((requests github_token visited
           ++ [Stderr ("Error checking for existing GitHub issues: "
                       ++ listing_error_details text response)]
           ++ trace_of o)%list, tracker_of o, result_of o))
      /\ (forall evm assignees joined,
            get_maintainers w mf (vf_group vf) t = (evm, t, Ok assignees) ->
            py_join ", " assignees = Ok joined ->
            In (PostIssue (issues_url REPO) github_token (issue_title w name latest)
                  (issue_body w REPO (vf_path vf) name target latest) assignees)
               (trace_of (notify w fuel REPO github_token mf vf name target latest t))
            /\ result_of (notify w fuel REPO github_token mf vf name target latest t)
               = Ok tt)).
Proof.
  intros Hfuel Hpath. split.
  - unfold check_existing_issue.
    exact (issue_loop_follows w github_token _ t _ true visited _ Hpath fuel Hfuel).
  - intros Hw.
    pose proof (notify_after_search fuel REPO github_token mf vf name target latest t
                  visited (Failed text response) Hw Hpath Hfuel) as Hn.
    cbn [search_answer search_log py_truthy] in Hn. cbv zeta in Hn.
    split; [exact Hn|].
    intros evm assignees joined Hm Hjoin.
    destruct (open_issue_joined REPO github_token mf vf name target
                (issue_title w name latest) joined latest assignees evm t Hm Hjoin)
      as [ev1 [ev2 [t' [Ho _]]]].
    rewrite Hn, Ho. cbn [trace_of tracker_of result_of fst snd].
    split; [|reflexivity].
    rewrite !in_app_iff. right; right; right. left. reflexivity.
Qed.

End Orchestrator.

(** ** The run as a whole *)

Section Run.

Context {T : Type} (w : World T).















End Run.

(** ** Idempotence *)

Section Idempotence.

Context {T : Type} (w : World T).

Lemma creates_nothing_bind {A B} (m : M T A) (k : A -> M T B) (t : T) :
  creates_nothing m t ->
  (forall ev a, m t = (ev, t, Ok a) -> creates_nothing (k a) t) ->
  creates_nothing (bind m k) t.
Proof.
  unfold creates_nothing, bind. intros [Ht Hp] Hk.
  destruct (m t) as [[ev1 t1] [a|e|]]; cbn [trace_of tracker_of fst snd] in *;
    try (split; assumption).
  subst t1. destruct (Hk ev1 a eq_refl) as [Ht2 Hp2].
  destruct (k a t) as [[ev2 t2] r]. cbn [trace_of tracker_of fst snd] in *.
  split; [exact Ht2|]. rewrite existsb_app, Hp, Hp2. reflexivity.
Qed.

Lemma creates_nothing_try {A} (body : M T A) (h : py_exn -> option (M T A)) (t : T) :
  creates_nothing body t ->
  (forall e handler, h e = Some handler -> creates_nothing handler t) ->
  creates_nothing (try_except body h) t.
Proof.
  unfold creates_nothing, try_except. intros [Ht Hp] Hh.
  destruct (body t) as [[ev1 t1] [a|e|]]; cbn [trace_of tracker_of fst snd] in *;
    try (split; assumption).
  subst t1. destruct (h e) as [handler|] eqn:He; [|split; [reflexivity|exact Hp]].
  destruct (Hh e handler He) as [Ht2 Hp2].
  destruct (handler t) as [[ev2 t2] r]. cbn [trace_of tracker_of fst snd] in *.
  split; [exact Ht2|]. rewrite existsb_app, Hp, Hp2. reflexivity.
Qed.

Lemma creates_nothing_for_each {A} (l : list A) (body : A -> M T unit) (t : T) :
  (forall x, In x l -> creates_nothing (body x) t) ->
  creates_nothing (for_each l body) t.
Proof.
  induction l as [|x l IH]; intros Hbody.
  - split; reflexivity.
  - simpl for_each. apply creates_nothing_bind.
    + apply Hbody. left. reflexivity.
    + intros _ _ _. apply IH. intros y Hy. apply Hbody. right. exact Hy.
Qed.

Lemma creates_nothing_ret {A} (a : A) (t : T) : creates_nothing (ret a) t.
Proof. split; reflexivity. Qed.

Lemma creates_nothing_print (s : string) (t : T) : creates_nothing (print s) t.
Proof. split; reflexivity. Qed.

Lemma creates_nothing_eprint (s : string) (t : T) : creates_nothing (eprint s) t.
Proof. split; reflexivity. Qed.

Lemma creates_nothing_lift {A} (r : result A) (t : T) : creates_nothing (lift r) t.
Proof. split; reflexivity. Qed.

Lemma creates_nothing_resolver (repo_url chart_name repoPath : pyval) (t : T) :
  creates_nothing (get_latest_helm_version w repo_url chart_name repoPath) t.
Proof.
  destruct (get_latest_helm_version_quiet w repo_url chart_name repoPath t) as [Ht Hq].
  split; [exact Ht|]. exact (no_issue_request_no_post _ Hq).
Qed.

(** With its issue on file, or with no update wanted, [notify] creates
    nothing. *)
Lemma creates_nothing_notify (fuel : nat) (REPO github_token mf : string)
  (vf : value_file) (name target : string) (latest : pyval) (t : T) :
  (update_wanted latest target = true ->
   issue_on_file w t fuel REPO github_token (issue_title w name latest)) ->
  creates_nothing (notify w fuel REPO github_token mf vf name target latest) t.
Proof.
  intros Hfile. destruct (update_wanted latest target) eqn:Hw.
  - destruct (Hfile eq_refl) as [visited [issue [n [Hpath [Hfuel [Hn Hpos]]]]]].
    unfold creates_nothing.
    rewrite (notify_after_search w fuel REPO github_token mf vf name target latest t
               visited (Found issue) Hw Hpath Hfuel).
    cbn [search_answer search_log]. rewrite Hn.
    assert (Hz : py_truthy (PInt n) = true)
      by (simpl; apply negb_true_iff, Z.eqb_neq; lia).
    rewrite Hz. cbn [trace_of tracker_of fst snd]. split; [reflexivity|].
    rewrite !existsb_app, requests_no_post. reflexivity.
  - unfold creates_nothing. rewrite (notify_not_wanted w _ _ _ _ _ _ _ _ _ Hw).
    split; reflexivity.
Qed.

Lemma creates_nothing_process_app (fuel : nat) (REPO github_token mf : string)
  (vf : value_file) (name : string) (details : pyval) (t : T) :
  (forall d ev latest,
     details = PDict d ->
     py_truthy (field d "chart") = true ->
     get_latest_helm_version w (field d "repoURL") (field d "chart") (field d "chart") t
       = (ev, t, Ok latest) ->
     py_truthy latest = true ->
     update_wanted latest (declared_version w d) = true ->
     issue_on_file w t fuel REPO github_token (issue_title w name latest)) ->
  creates_nothing (process_app w fuel REPO github_token mf vf name details) t.
Proof.
  intros Hfile. unfold process_app.
  destruct details as [| | | | | |d]; cbn [is_dict negb];
    try apply creates_nothing_eprint.
  cbn [py_get]. fold (field d "repoURL"). fold (field d "chart").
  do 4 (apply creates_nothing_bind; [apply creates_nothing_lift|];
        intros ? ? Heq; inversion Heq; subst; clear Heq).
  destruct (py_truthy (field d "chart")) eqn:Hchart; cbn [negb orb];
    [|apply creates_nothing_print].
  apply creates_nothing_bind; [apply creates_nothing_resolver|].
  intros ev latest Hlatest.
  destruct (py_truthy latest) eqn:Htruthy; cbn [negb];
    [|apply creates_nothing_ret].
  do 5 (apply creates_nothing_bind; [apply creates_nothing_print|]; intros _ _ _).
  apply creates_nothing_notify. intros Hw.
  exact (Hfile d ev latest eq_refl Hchart Hlatest Htruthy Hw).
Qed.

Lemma creates_nothing_process_file (fuel : nat) (REPO github_token mf : string)
  (vf : value_file) (t : T) :
  (forall apps name d ev latest,
     load_yaml w (vf_path vf) = FileDoc (PDict apps) ->
     In (name, PDict d) apps ->
     py_truthy (field d "chart") = true ->
     get_latest_helm_version w (field d "repoURL") (field d "chart") (field d "chart") t
       = (ev, t, Ok latest) ->
     py_truthy latest = true ->
     update_wanted latest (declared_version w d) = true ->
     issue_on_file w t fuel REPO github_token (issue_title w name latest)) ->
  creates_nothing (process_file w fuel REPO github_token mf vf) t.
Proof.
  intros Hfile. unfold process_file.
  apply creates_nothing_bind; [apply creates_nothing_print|]. intros _ _ _.
  apply creates_nothing_bind.
  - apply creates_nothing_try.
    + unfold open_yaml.
      destruct (load_yaml w (vf_path vf)); split; reflexivity.
    + intros e handler He. destruct (is_Exception e); [|discriminate].
      inversion He; subst handler. split; reflexivity.
  - intros ev loaded Hloaded.
    destruct loaded as [apps_data|]; [|apply creates_nothing_ret].
    assert (Hdoc : load_yaml w (vf_path vf) = FileDoc apps_data).
    { revert Hloaded. unfold open_yaml. monad_unfold.
      destruct (load_yaml w (vf_path vf)) as [doc|text|text]; cbn;
        intros H; inversion H; reflexivity. }
    destruct (py_truthy apps_data); cbn [negb]; [|apply creates_nothing_ret].
    apply creates_nothing_bind; [apply creates_nothing_lift|].
    intros ev' items Hitems.
    destruct apps_data as [| | | | | |apps]; try discriminate.
    inversion Hitems; subst items ev'. clear Hitems.
    apply creates_nothing_for_each.
    intros [name details] Hin. cbn [fst snd].
    apply creates_nothing_process_app.
    intros d ev' latest -> Hchart Hlatest Htruthy Hw.
    exact (Hfile apps name d ev' latest Hdoc Hin Hchart Hlatest Htruthy Hw).
Qed.

Lemma creates_nothing_main (fuel : nat) (REPO : option string) (args : Args) (t : T) :
  all_issues_on_file w t fuel REPO args ->
  creates_nothing (main w fuel REPO args) t.
Proof.
  intros Hfile. unfold main. cbv zeta.
  destruct (negb (env_truthy REPO) || (token args =? "")); [split; reflexivity|].
  destruct (negb (is_file w (maintainers_file args))); [split; reflexivity|].
  apply creates_nothing_bind; [apply creates_nothing_print|]. intros _ _ _.
  destruct (glob_values w (charts_path args)) as [|vf files] eqn:Hglob;
    [apply creates_nothing_print|].
  apply creates_nothing_bind; [|intros _ _ _; apply creates_nothing_print].
  apply creates_nothing_for_each. intros x Hin.
  apply creates_nothing_process_file.
  intros apps name d ev latest Hdoc Happ Hchart Hlatest Htruthy Hw.
  apply (Hfile x apps name d ev latest); auto.
  rewrite Hglob. exact Hin.
Qed.

(** C2.  An application that wants an update and whose search meets an
    open issue with exactly the title [New Version Available: <name>
    <latest>] (issue numbers being positive) is reported as already having
    its issue: no create-issue request is sent for it and the tracker is
    left as it was.  Hence a run started when every application that
    wants an update has its issue on file, as after an earlier run with
    the same upstream versions, sends no create-issue request at all. *)
Theorem existing_issue_is_not_duplicated (fuel : nat) (REPO : option string)
  (args : Args) (t : T) :
  (forall vf name d latest ev0 t0 visited issue n,
     py_truthy (field d "chart") = true ->
     get_latest_helm_version w (field d "repoURL") (field d "chart") (field d "chart") t
       = (ev0, t0, Ok latest) ->
     py_truthy latest = true ->
     update_wanted latest (declared_version w d) = true ->
     search_path w t0 (token args) (issue_title w name latest)
                 (issues_url (env_str REPO)) true visited (Found issue) ->
     length visited <= fuel ->
     issue_number issue = PInt n -> (0 < n)%Z ->
     let o := process_app w fuel (env_str REPO) (token args) (maintainers_file args)
                          vf name (PDict d) t in
     existsb is_post (trace_of o) = false
     /\ tracker_of o = t
     /\ result_of o = Ok tt
     /\ last (trace_of o) (Stdout "")
        = Stdout ("Issue #" ++ str_of_Z n ++ " for '" ++ issue_title w name latest
                  ++ "' already exists. Skipping."))
  /\ (all_issues_on_file w t fuel REPO args ->
      existsb is_post (trace_of (main w fuel REPO args t)) = false
      /\ tracker_of (main w fuel REPO args t) = t).
Proof.
  split.
  - intros vf name d latest ev0 t0 visited issue n
           Hchart Hlatest Htruthy Hw Hpath Hfuel Hn Hpos. cbv zeta.
    destruct (process_app_existing_issue w fuel (env_str REPO) (token args)
                (maintainers_file args) vf name d latest ev0 t t0 visited issue n
                Hchart Hlatest Htruthy Hw Hpath Hfuel Hn Hpos) as [Heq Hpost].
    split; [exact Hpost|]. rewrite Heq. cbn [trace_of tracker_of result_of fst snd].
    split; [reflexivity|]. split; [reflexivity|].
    rewrite !app_assoc. apply last_last.
  - intros Hfile. destruct (creates_nothing_main fuel REPO args t Hfile) as [Ht Hp].
    split; assumption.
Qed.

End Idempotence.

(** ** The scenario of the test suite *)

(** The concrete world has the documented shapes. *)

Lemma demo_maintainers_wf : maintainers_wf demo_maintainers.
Proof.
  intros k v H. unfold demo_maintainers in H. cbn [dict_get] in H.
  destruct ("default" =? k); [inversion H; eexists; reflexivity|].
  destruct ("firsttest-apps" =? k); [inversion H; eexists; reflexivity|].
  discriminate.
Qed.





Lemma demo_listings_end : listings_end demo_world 1 demo_repo demo_args.
Proof.
  intros t. eapply pages_end_page; [reflexivity|constructor].
Qed.

(** After the first run, every application that wants an update has its
    issue on file. *)
Lemma demo_all_issues_on_file :
  all_issues_on_file demo_world after_first_run 1 demo_repo demo_args.
Proof.
  intros vf apps name d ev latest Hvf Hload Happ Hchart Hlatest Htruthy Hw.
  simpl in Hvf. destruct Hvf as [<- | [<- | []]];
    vm_compute in Hload; inversion Hload; subst apps; clear Hload;
    simpl in Happ.
  - destruct Happ as [H | [H | []]]; inversion H; subst; clear H;
      vm_compute in Hlatest; inversion Hlatest; subst; try discriminate.
    exists [(demo_issues_url, true)],
           (issue_json ("New Version Available: certManager v1.19.1", 1%Z)), 1%Z.
    split; [|split; [simpl; lia|split; [reflexivity|lia]]].
    apply (path_found demo_world after_first_run _ _ demo_issues_url true []
             [issue_json ("New Version Available: argocd 8.6.2", 2%Z)]
             (issue_json ("New Version Available: certManager v1.19.1", 1%Z)) None).
    + discriminate.
    + reflexivity.
    + constructor.
    + eexists. split; reflexivity.
  - destruct Happ as [H | []]; inversion H; subst; clear H.
    vm_compute in Hlatest; inversion Hlatest; subst.
    exists [(demo_issues_url, true)],
           (issue_json ("New Version Available: argocd 8.6.2", 2%Z)), 2%Z.
    split; [|split; [simpl; lia|split; [reflexivity|lia]]].
    apply (path_found demo_world after_first_run _ _ demo_issues_url true
             [issue_json ("New Version Available: certManager v1.19.1", 1%Z)] []
             (issue_json ("New Version Available: argocd 8.6.2", 2%Z)) None).
    + discriminate.
    + reflexivity.
    + constructor; [|constructor]. eexists. split; [reflexivity|]. discriminate.
    + eexists. split; reflexivity.
Qed.

(** The two pages of [paged_world], walked for the title of
    [certManager], and walked to the end for a title that is not there. *)
Lemma paged_walk_found :
  search_path paged_world [] "fake-token"
    "New Version Available: certManager v1.19.1"
    (issues_url "test-owner/test-repo") true
    [(demo_issues_url, true); (page2_url, false)]
    (Found (issue_json ("New Version Available: certManager v1.19.1", 123%Z))).
Proof.
  apply (path_next paged_world [] _ _ demo_issues_url true
           [issue_json ("Wrong issue", 111%Z)] page2_url).
  - discriminate.
  - reflexivity.
  - constructor; [|constructor]. eexists. split; [reflexivity|discriminate].
  - apply (path_found paged_world [] _ _ page2_url false
             [issue_json ("Some other issue", 124%Z)]
             [issue_json ("New Version Available: certManager v1.19.1", 125%Z)]
             (issue_json ("New Version Available: certManager v1.19.1", 123%Z)) None).
    + discriminate.
    + reflexivity.
    + constructor; [|constructor]. eexists. split; [reflexivity|discriminate].
    + eexists. split; reflexivity.
Qed.

Lemma paged_walk_exhausted :
  search_path paged_world [] "fake-token"
    "New Version Available: argocd 8.6.2"
    (issues_url "test-owner/test-repo") true
    [(demo_issues_url, true); (page2_url, false)] Exhausted.
Proof.
  apply (path_next paged_world [] _ _ demo_issues_url true
           [issue_json ("Wrong issue", 111%Z)] page2_url).
  - discriminate.
  - reflexivity.
  - constructor; [|constructor]. eexists. split; [reflexivity|discriminate].
  - eapply (path_exhausted paged_world [] _ _ page2_url false _ None).
    + discriminate.
    + reflexivity.
    + repeat constructor; eexists; (split; [reflexivity|discriminate]).
    + left. reflexivity.
Qed.

Lemma flaky_walk_failed :
  search_path flaky_world [] "fake-token"
    (issue_title flaky_world "certManager" (PStr "v1.19.1"))
    (issues_url "test-owner/test-repo") true
    [(demo_issues_url, true); (page2_url, false)]
    (Failed "Read timed out." None).
Proof.
  apply (path_next flaky_world [] _ _ demo_issues_url true
           [issue_json ("Wrong issue", 111%Z)] page2_url).
  - discriminate.
  - reflexivity.
  - constructor; [|constructor]. eexists. split; [reflexivity|discriminate].
  - apply path_failed; [discriminate|reflexivity].
Qed.

(** C1 at [certManager]: declared v1.18.2, latest v1.19.1. *)
Lemma notification_trigger_witness :
  (In (search_request "test-owner/test-repo" "fake-token")
      (trace_of (process_app demo_world 1 "test-owner/test-repo" "fake-token"
                   "MAINTAINERS.yaml" firsttest "certManager" (PDict cert_manager) []))
   <-> PStr "v1.19.1" <> PStr (declared_version demo_world cert_manager)
       /\ declared_version demo_world cert_manager <> "")
  /\ update_wanted (PStr "v2") "" = false
  /\ update_wanted (PStr "v1") "v1" = false
  /\ update_wanted (PStr "v2") "v1" = true.
Proof.
  apply (notification_trigger demo_world 1 "test-owner/test-repo" "fake-token"
           "MAINTAINERS.yaml" firsttest "certManager" cert_manager (PStr "v1.19.1")
           [GetIndex "https://charts.jetstack.io/index.yaml"] [] []).
  - lia.
  - reflexivity.
  - reflexivity.
  - reflexivity.
Defined.

(** C9 at an application whose [targetRevision] is null. *)
Lemma null_target_revision_witness :
  declared_version demo_world unpinned = "None"
  /\ String.length (declared_version demo_world unpinned) = 4
  /\ (In (search_request "test-owner/test-repo" "fake-token")
         (trace_of (process_app demo_world 1 "test-owner/test-repo" "fake-token"
                      "MAINTAINERS.yaml" firsttest "unpinned" (PDict unpinned) []))
      <-> PStr "v1.19.1" <> PStr "None").
Proof.
  apply (null_target_revision demo_world 1 "test-owner/test-repo" "fake-token"
           "MAINTAINERS.yaml" firsttest "unpinned" unpinned (PStr "v1.19.1")
           [GetIndex "https://charts.jetstack.io/index.yaml"] [] []).
  - reflexivity.
  - lia.
  - reflexivity.
  - reflexivity.
  - reflexivity.
Defined.

(** C2 at the second run of the scenario. *)
Lemma existing_issue_is_not_duplicated_witness :
  (let o := process_app demo_world 1 "test-owner/test-repo" "fake-token"
              "MAINTAINERS.yaml" firsttest "certManager" (PDict cert_manager)
              after_first_run in
   existsb is_post (trace_of o) = false
   /\ tracker_of o = after_first_run
   /\ result_of o = Ok tt
   /\ last (trace_of o) (Stdout "")
      = Stdout ("Issue #" ++ str_of_Z 1 ++ " for '"
                ++ issue_title demo_world "certManager" (PStr "v1.19.1")
                ++ "' already exists. Skipping."))
  /\ existsb is_post (trace_of (main demo_world 1 demo_repo demo_args after_first_run))
     = false
  /\ tracker_of (main demo_world 1 demo_repo demo_args after_first_run)
     = after_first_run.
Proof.
  destruct (existing_issue_is_not_duplicated demo_world 1 demo_repo demo_args
              after_first_run) as [Happ Hrun].
  split.
  - apply (Happ firsttest "certManager" cert_manager (PStr "v1.19.1")
             [GetIndex "https://charts.jetstack.io/index.yaml"] after_first_run
             [(demo_issues_url, true)]
             (issue_json ("New Version Available: certManager v1.19.1", 1%Z)) 1%Z).
    + reflexivity.
    + reflexivity.
    + reflexivity.
    + reflexivity.
    + apply (path_found demo_world after_first_run _ _ demo_issues_url true []
               [issue_json ("New Version Available: argocd 8.6.2", 2%Z)]
               (issue_json ("New Version Available: certManager v1.19.1", 1%Z)) None).
      * discriminate.
      * reflexivity.
      * constructor.
      * eexists. split; reflexivity.
    + simpl. lia.
    + reflexivity.
    + lia.
  - exact (Hrun demo_all_issues_on_file).
Defined.

(** C3 at a listing whose second page times out. *)
Lemma listing_failure_opens_issue_witness :
  check_existing_issue flaky_world 2 "test-owner/test-repo" "fake-token"
    (issue_title flaky_world "certManager" (PStr "v1.19.1")) []
  = ((requests "fake-token" [(demo_issues_url, true); (page2_url, false)]
      ++ [Stderr ("Error checking for existing GitHub issues: "
                  ++ listing_error_details "Read timed out." None)])%list,
     [], Ok PNone)
  /\ In (PostIssue (issues_url "test-owner/test-repo") "fake-token"
           (issue_title flaky_world "certManager" (PStr "v1.19.1"))
           (issue_body flaky_world "test-owner/test-repo" (vf_path firsttest)
                       "certManager" "v1.18.2" (PStr "v1.19.1"))
           (PList [PStr "gh-user2"]))
        (trace_of (notify flaky_world 2 "test-owner/test-repo" "fake-token"
                     "MAINTAINERS.yaml" firsttest "certManager" "v1.18.2"
                     (PStr "v1.19.1") []))
  /\ result_of (notify flaky_world 2 "test-owner/test-repo" "fake-token"
                  "MAINTAINERS.yaml" firsttest "certManager" "v1.18.2"
                  (PStr "v1.19.1") [])
     = Ok tt.
Proof.
  assert (Hlen : length [(demo_issues_url, true); (page2_url, false)] <= 2)
    by (simpl; lia).
  destruct (listing_failure_opens_issue flaky_world 2 "test-owner/test-repo"
              "fake-token" "MAINTAINERS.yaml" firsttest "certManager" "v1.18.2"
              (PStr "v1.19.1") [] [(demo_issues_url, true); (page2_url, false)]
              "Read timed out." None Hlen flaky_walk_failed) as [Hsearch Hnotify].
  split; [exact Hsearch|].
  destruct (Hnotify eq_refl) as [_ Hpost].
  exact (Hpost [] (PList [PStr "gh-user2"]) "gh-user2" eq_refl eq_refl).
Defined.

(** C4 at the two pages of [paged_world]. *)
Lemma check_existing_issue_walk_witness :
  check_existing_issue paged_world 2 "test-owner/test-repo" "fake-token"
    "New Version Available: certManager v1.19.1" []
  = (requests "fake-token" [(demo_issues_url, true); (page2_url, false)], [],
     Ok (PInt 123))
  /\ check_existing_issue paged_world 2 "test-owner/test-repo" "fake-token"
       "New Version Available: argocd 8.6.2" []
     = (requests "fake-token" [(demo_issues_url, true); (page2_url, false)], [],
        Ok PNone).
Proof.
  assert (Hlen : length [(demo_issues_url, true); (page2_url, false)] <= 2)
    by (simpl; lia).
  split.
  - exact (proj1 (check_existing_issue_walk paged_world 2 "test-owner/test-repo"
                    "fake-token" "New Version Available: certManager v1.19.1" []
                    [(demo_issues_url, true); (page2_url, false)] Hlen)
                 _ paged_walk_found).
  - exact (proj1 (proj2 (check_existing_issue_walk paged_world 2
                           "test-owner/test-repo" "fake-token"
                           "New Version Available: argocd 8.6.2" []
                           [(demo_issues_url, true); (page2_url, false)] Hlen))
                 paged_walk_exhausted).
Defined.

(** C5 at the maintainers file of the scenario, at a file that does not
    exist and at one that does not parse. *)
Lemma get_maintainers_lookup_witness :
  (exists ev,
     get_maintainers demo_world "MAINTAINERS.yaml" "firsttest-apps" []
     = (ev, [], Ok (PList [PStr "gh-user2"]))
     /\ existsb is_network ev = false)
  /\ (exists ev,
        get_maintainers demo_world "MAINTAINERS.yaml" "secondtest-apps" []
        = (ev, [], Ok (PList [PStr "gh-user1"]))
        /\ existsb is_network ev = false)
  /\ get_maintainers demo_world "nonexistent/file.yaml" "any-app" []
     = ([Stderr ("Error: Maintainers file not found at " ++ "nonexistent/file.yaml")],
        [], Ok (PList []))
  /\ get_maintainers demo_world "broken.yaml" "any-app" []
     = ([Stderr ("Error reading or parsing maintainers file: "
                 ++ "mapping values are not allowed here")], [], Ok (PList [])).
Proof.
  split; [|split; [|split]].
  - exact (proj1 (get_maintainers_lookup demo_world "MAINTAINERS.yaml"
                    "firsttest-apps" [])
                 demo_maintainers eq_refl demo_maintainers_wf).
  - exact (proj1 (get_maintainers_lookup demo_world "MAINTAINERS.yaml"
                    "secondtest-apps" [])
                 demo_maintainers eq_refl demo_maintainers_wf).
  - exact (proj1 (proj2 (get_maintainers_lookup demo_world "nonexistent/file.yaml"
                           "any-app" []))
                 "[Errno 2] No such file or directory" eq_refl).
  - exact (proj2 (proj2 (get_maintainers_lookup demo_world "broken.yaml"
                           "any-app" []))
                 "mapping values are not allowed here" eq_refl).
Defined.

(** C10 at an empty maintainers file, which parses to [None]. *)
Lemma get_maintainers_not_a_mapping_witness :
  py_get PNone "firsttest-apps" (PList []) = Exc (AttributeError PNone "get")
  /\ get_maintainers demo_world "empty.yaml" "firsttest-apps" []
     = ([Stderr ("Error reading or parsing maintainers file: "
                 ++ "'NoneType' object has no attribute 'get'")], [], Ok (PList [])).
Proof.
  exact (get_maintainers_not_a_mapping demo_world "empty.yaml" "firsttest-apps"
           PNone [] eq_refl eq_refl).
Defined.

(** C6 at the repository URL [null]. *)
Lemma get_latest_helm_version_invalid_url_witness :
  get_latest_helm_version demo_world (PStr "null") (PStr "some-chart")
    (PStr "some-chart") []
  = ([Stderr ("Warning: Invalid or missing repoURL for chart '" ++ "some-chart"
              ++ "'. Skipping.")], [], Ok PNone)
  /\ existsb is_network
       (trace_of (get_latest_helm_version demo_world (PStr "null")
                    (PStr "some-chart") (PStr "some-chart") []))
     = false.
Proof.
  exact (proj2 (get_latest_helm_version_invalid_url demo_world (PStr "null")
                  (PStr "some-chart") (PStr "some-chart") [])
               (or_intror (or_intror eq_refl))).
Defined.

(** C7, at a chart repository that answers with a body that is not YAML:
    [yaml.safe_load] raises [YAMLError], neither [except] clause of the
    resolver matches it, and the exception leaves the resolver and the
    run, which ends with status 1 and without its end-of-run message. *)
Theorem unparsable_index_escapes :
  get_latest_helm_version html_world (PStr "https://charts.jetstack.io")
    (PStr "cert-manager") (PStr "cert-manager") []
  = ([GetIndex "https://charts.jetstack.io/index.yaml"], [],
     Exc (YAMLError "mapping values are not allowed here"))
  /\ exit_status (result_of (main html_world 1 demo_repo demo_args [])) = Some 1%Z
  /\ ~ In end_of_run (trace_of (main html_world 1 demo_repo demo_args [])).
Proof.
  split; [reflexivity|]. split; [reflexivity|].
  vm_compute. intros H.
  repeat (destruct H as [H|H]; [discriminate|]). exact H.
Qed.


(** Nor does it hold for a run that meets an index body that is not
    YAML: no fatal precondition, and status 1. *)
Lemma exit_rule_fails_on_unparsable_index :
  ~ exits_as_specified html_world 1 demo_repo demo_options [].
Proof.
  unfold exits_as_specified. intros [H _].
  assert (Hfatal : run_precondition_fails html_world demo_repo demo_options)
    by (apply H; vm_compute; discriminate).
  destruct Hfatal as [Hf | [Hf | [Hf | Hf]]]; discriminate.
Qed.



(** ** Further properties of the resolver *)

Section ResolverEdges.

Context {T : Type} (w : World T).

Lemma rstrip_slash_no_trailing (s : string) :
  ends_with_slash (rstrip_slash s) = false.
Proof.
  induction s as [|c rest IH]; [reflexivity|].
  cbn [rstrip_slash].
  destruct (rstrip_slash rest) as [|c' rest'] eqn:Hr.
  - cbn [String.eqb andb]. destruct (c =? "/")%char eqn:Hc; [reflexivity|].
    cbn [ends_with_slash]. exact Hc.
  - cbn [String.eqb andb]. exact IH.
Qed.

Lemma rstrip_slash_append (s : string) :
  rstrip_slash (s ++ "/") = rstrip_slash s.
Proof.
  induction s as [|c rest IH]; [reflexivity|].
  cbn [String.append rstrip_slash]. rewrite IH. reflexivity.
Qed.

Lemma rstrip_slash_fixed (s : string) :
  ends_with_slash s = false -> rstrip_slash s = s.
Proof.
  induction s as [|c rest IH]; [reflexivity|].
  intros H. cbn [rstrip_slash].
  destruct rest as [|c' rest'].
  - cbn [ends_with_slash] in H. cbn [rstrip_slash String.eqb andb].
    rewrite H. reflexivity.
  - rewrite (IH H). reflexivity.
Qed.

(** X1.  The index URL is built from the repository URL without its
    trailing slashes: the stripped URL never ends with a slash, a URL that
    has no trailing slash is kept as it is, one more trailing slash makes
    no difference to the index that is requested, and stripping twice is
    stripping once. *)
Theorem index_url_ignores_trailing_slashes (s : string) :
  ends_with_slash (rstrip_slash s) = false
  /\ (ends_with_slash s = false -> index_url_of s = s ++ "/index.yaml")
  /\ index_url_of (s ++ "/") = index_url_of s
  /\ rstrip_slash (rstrip_slash s) = rstrip_slash s.
Proof.
  split; [apply rstrip_slash_no_trailing|].
  split; [intros H; unfold index_url_of; rewrite (rstrip_slash_fixed s H); reflexivity|].
  split; [unfold index_url_of; rewrite rstrip_slash_append; reflexivity|].
  apply rstrip_slash_fixed, rstrip_slash_no_trailing.
Qed.

(** X2.  When the download of the index fails (transport error, timeout,
    error status), the resolver has sent that one request, logs the URL
    and the detail on stderr and returns [None]. *)
Theorem get_latest_helm_version_transport_failure (s : string)
  (chart_name repoPath : pyval) (t : T) (text : string)
  (response : option (bool * string)) :
  (s =? "") = false -> (s =? "null") = false ->
  fetch_index w (index_url_of s) = IndexFailed text response ->
  get_latest_helm_version w (PStr s) chart_name repoPath t =
    ([GetIndex (index_url_of s);
      Stderr ("Error: Failed to download index.yaml from " ++ index_url_of s
              ++ ". Details: " ++ text)], t, Ok PNone).
Proof.
  intros Hne Hnull Hf.
  rewrite (get_latest_helm_version_fetch w s chart_name repoPath t Hne Hnull), Hf.
  reflexivity.
Qed.

(** X3.  When the index downloads and parses, the resolver never raises:
    it returns [entries[chart][0].version] when that lookup succeeds, and
    otherwise (a [KeyError], [IndexError] or [TypeError], nothing else
    being possible) logs the parse-level error and returns [None].  Only
    the first release of the chart is read: the releases that follow it
    do not change the answer. *)
Theorem get_latest_helm_version_parsed (s : string) (chart_name repoPath doc : pyval)
  (t : T) :
  (s =? "") = false -> (s =? "null") = false ->
  fetch_index w (index_url_of s) = IndexDoc doc ->
  (forall v, lookup_version doc chart_name = Ok v ->
     get_latest_helm_version w (PStr s) chart_name repoPath t
     = ([GetIndex (index_url_of s)], t, Ok v))
  /\ (forall e, lookup_version doc chart_name = Exc e ->
        is_lookup_error e = true
        /\ get_latest_helm_version w (PStr s) chart_name repoPath t
           = ([GetIndex (index_url_of s);
               Stderr ("Error: Could not parse version for chart '"
                       ++ py_str w chart_name ++ "' from " ++ index_url_of s
                       ++ ". Details: " ++ str_exn w e)], t, Ok PNone))
  /\ lookup_version doc chart_name <> OutOfFuel
  /\ (forall d entries name first rest,
        doc = PDict d -> dict_get d "entries" = Some (PDict entries) ->
        chart_name = PStr name ->
        dict_get entries name = Some (PList (first :: rest)) ->
        lookup_version doc chart_name = py_getitem first (PStr "version")).
Proof.
  intros Hne Hnull Hf.
  pose proof (get_latest_helm_version_fetch w s chart_name repoPath t Hne Hnull) as H.
  rewrite Hf in H.
  split; [intros v Hv; rewrite H, Hv; reflexivity|].
  split; [intros e He; split;
          [exact (lookup_version_error _ _ _ He)|rewrite H, He; reflexivity]|].
  split; [apply lookup_version_fuel|].
  intros d entries name first rest -> Hd -> Hn.
  unfold lookup_version. cbn [py_getitem rbind].
  rewrite Hd. cbn [rbind py_getitem]. rewrite Hn. reflexivity.
Qed.

(** X4.  A [repoURL] that is set to something other than a string (a
    number, a list, a mapping, [true]) passes the guard of line 52 and
    fails at [rstrip], outside the [try]: [AttributeError] leaves the
    resolver before any request is sent or anything is logged. *)
Theorem get_latest_helm_version_non_string_url (repo_url chart_name repoPath : pyval)
  (t : T) :
  py_truthy repo_url = true ->
  (forall s, repo_url <> PStr s) ->
  get_latest_helm_version w repo_url chart_name repoPath t
  = ([], t, Exc (AttributeError repo_url "rstrip")).
Proof.
  intros Ht Hs. unfold get_latest_helm_version. rewrite Ht.
  destruct repo_url; try reflexivity.
  exfalso. exact (Hs s eq_refl).
Qed.

End ResolverEdges.

(** ** Further properties of the issue tracker client *)

Section ClientEdges.

Context {T : Type} (w : World T).

Lemma py_join_error (sep : string) (obj : pyval) (e : py_exn) :
  py_join sep obj = Exc e -> exists a b, e = TypeError a b.
Proof.
  unfold py_join, rbind, py_iter. intros H.
  destruct obj; try (inversion H; do 2 eexists; reflexivity);
    match type of H with
    | context [all_strings ?l] => destruct (all_strings l)
    end; inversion H; do 2 eexists; reflexivity.
Qed.

Lemma create_github_issue_unjoined (repo token title body : string)
  (assignees : pyval) (e : py_exn) (t : T) :
  py_join ", " assignees = Exc e ->
  create_github_issue w repo token title body assignees t =
    match post_issue w t (issues_url repo) token title body assignees with
    | (Posted, t') =>
        ([PostIssue (issues_url repo) token title body assignees], t', Exc e)
    | (PostFailed text response, t') =>
        ([PostIssue (issues_url repo) token title body assignees;
          Stderr ("Error creating GitHub issue '" ++ title ++ "': "
                  ++ creation_error_details text response)], t', Ok tt)
    end.
Proof.
  intros Hjoin. destruct (py_join_error _ _ _ Hjoin) as [a [b ->]].
  unfold create_github_issue, send_issue. monad_unfold.
  destruct (post_issue w t (issues_url repo) token title body assignees)
    as [[text response|] t'].
  - destruct response as [[ok b']|]; reflexivity.
  - rewrite Hjoin. reflexivity.
Qed.

(** X5.  [create_github_issue] with assignees that can be joined sends
    exactly one create-issue request, to the issue list of the
    repository, and returns normally whether the request succeeds or
    fails: success is logged on stdout with the assignees, failure on
    stderr with the body of the response attached to the exception, or
    with the text of the exception when there is none. *)
Theorem create_github_issue_outcome (repo token title body joined : string)
  (assignees : pyval) (t : T) :
  py_join ", " assignees = Ok joined ->
  let o := create_github_issue w repo token title body assignees t in
  let request := PostIssue (issues_url repo) token title body assignees in
  result_of o = Ok tt
  /\ count_posts (trace_of o) = 1
  /\ tracker_of o = snd (post_issue w t (issues_url repo) token title body assignees)
  /\ trace_of o
     = match fst (post_issue w t (issues_url repo) token title body assignees) with
       | Posted =>
           [request;
            Stdout ("Successfully created issue '" ++ title
                    ++ "' and assigned to: " ++ joined)]
       | PostFailed text response =>
           [request;
            Stderr ("Error creating GitHub issue '" ++ title ++ "': "
                    ++ creation_error_details text response)]
       end.
Proof.
  intros Hjoin. cbv zeta.
  rewrite (create_github_issue_joined w repo token title body joined assignees t Hjoin).
  destruct (post_issue w t (issues_url repo) token title body assignees)
    as [[text response|] t']; repeat split.
Qed.

(** X6.  [create_github_issue] with assignees that cannot be joined
    ([None], a number, a list that holds something other than strings)
    still sends the request, and nothing but that one.  When the request
    succeeds, nothing is printed and the [TypeError] of the success
    message, which is no [RequestException], leaves the function after
    the issue has been created; when the request fails, the failure is
    logged on stderr and the function returns normally. *)
Theorem create_github_issue_unjoinable (repo token title body : string)
  (assignees : pyval) (e : py_exn) (t : T) :
  py_join ", " assignees = Exc e ->
  let o := create_github_issue w repo token title body assignees t in
  let request := PostIssue (issues_url repo) token title body assignees in
  count_posts (trace_of o) = 1
  /\ tracker_of o = snd (post_issue w t (issues_url repo) token title body assignees)
  /\ match fst (post_issue w t (issues_url repo) token title body assignees) with
     | Posted => trace_of o = [request] /\ result_of o = Exc e
     | PostFailed text response =>
         trace_of o
         = [request;
            Stderr ("Error creating GitHub issue '" ++ title ++ "': "
                    ++ creation_error_details text response)]
         /\ result_of o = Ok tt
     end
  /\ is_RequestException e = false.
Proof.
  intros Hjoin. cbv zeta.
  rewrite (create_github_issue_unjoined repo token title body assignees e t Hjoin).
  destruct (py_join_error _ _ _ Hjoin) as [a [b ->]].
  destruct (post_issue w t (issues_url repo) token title body assignees)
    as [[text response|] t']; repeat split.
Qed.

(** One round of the loop sends its request and nothing else, and leaves
    the tracker alone, however it ends. *)
Lemma issue_round_shape (url token title : string) (p : bool) (t : T) :
  exists ev r,
    issue_round w url token title p t = (GetIssues url token p :: ev, t, r)
    /\ existsb is_network ev = false.
Proof.
  unfold issue_round, get_issue_page. monad_unfold.
  destruct (fetch_issues w t url token p) as [text response|issues next].
  - do 2 eexists. split; reflexivity.
  - cbn [fst snd].
    destruct (py_iter issues) as [items|e|].
    + destruct (scan_issues items title) as [[number|]|e|].
      * do 2 eexists. split; reflexivity.
      * do 2 eexists. split; reflexivity.
      * destruct e; do 2 eexists; split; reflexivity.
      * do 2 eexists. split; reflexivity.
    + destruct e; do 2 eexists; split; reflexivity.
    + do 2 eexists. split; reflexivity.
Qed.

Lemma issue_loop_shape (fuel : nat) (url : option string) (token title : string)
  (p : bool) (t : T) :
  exists ev r,
    issue_loop w fuel url token title p t = (ev, t, r)
    /\ existsb is_post ev = false
    /\ length (filter is_network ev) <= fuel.
Proof.
  revert url p. induction fuel as [|fuel IH]; intros url p.
  - destruct url as [u|]; simpl.
    + destruct (u =? ""); do 2 eexists; repeat split; simpl; lia.
    + do 2 eexists; repeat split; simpl; lia.
  - destruct url as [u|]; [|do 2 eexists; repeat split; simpl; lia].
    simpl issue_loop.
    destruct (u =? ""); [do 2 eexists; repeat split; simpl; lia|].
    destruct (issue_round_shape u token title p t) as [ev [r [Hr Hev]]].
    unfold bind. rewrite Hr.
    assert (Hnet : filter is_network ev = []).
    { clear Hr. induction ev as [|x ev IHev]; [reflexivity|].
      simpl in Hev. apply orb_false_iff in Hev. destruct Hev as [Hx Hrest].
      simpl. rewrite Hx. exact (IHev Hrest). }
    assert (Hpost : existsb is_post ev = false).
    { clear Hr Hnet. induction ev as [|x ev IHev]; [reflexivity|].
      simpl in Hev. apply orb_false_iff in Hev. destruct Hev as [Hx Hrest].
      simpl. rewrite (IHev Hrest). destruct x; try discriminate; reflexivity. }
    destruct r as [[v|url']|e|].
    + do 2 eexists. split; [reflexivity|]. split.
      * simpl. rewrite app_nil_r. exact Hpost.
      * simpl. rewrite app_nil_r, Hnet. simpl. lia.
    + destruct (IH url' false) as [ev2 [r2 [-> [Hp2 Hn2]]]].
      do 2 eexists. split; [reflexivity|]. split.
      * simpl. rewrite existsb_app, Hpost, Hp2. reflexivity.
      * simpl. rewrite filter_app, Hnet. simpl. lia.
    + do 2 eexists. split; [reflexivity|]. split; [exact Hpost|].
      simpl. rewrite Hnet. simpl. lia.
    + do 2 eexists. split; [reflexivity|]. split; [exact Hpost|].
      simpl. rewrite Hnet. simpl. lia.
Qed.

(** X7.  Whatever the tracker answers, and however the search ends
    (a number, [None], an exception, or no end within the fuel), a search
    creates no issue, leaves the tracker as it was and sends at most one
    request per unit of fuel. *)
Theorem check_existing_issue_reads_only (fuel : nat) (repo token title : string)
  (t : T) :
  let o := check_existing_issue w fuel repo token title t in
  tracker_of o = t
  /\ existsb is_post (trace_of o) = false
  /\ length (filter is_network (trace_of o)) <= fuel.
Proof.
  cbv zeta. unfold check_existing_issue.
  destruct (issue_loop_shape fuel (Some (issues_url repo)) token title true t)
    as [ev [r [-> [Hp Hn]]]].
  repeat split; assumption.
Qed.

(** X8.  A listing page that is not a list of mappings is not handled:
    when iterating the page or reading the title of one of its items
    raises, the exception (a [TypeError] or an [AttributeError], which the
    handler of line 99 does not catch) leaves the search right after the
    request of that page. *)
Theorem check_existing_issue_malformed_page (fuel : nat) (repo token title : string)
  (t : T) (issues : pyval) (next : option string) (e : py_exn) :
  1 <= fuel ->
  fetch_issues w t (issues_url repo) token true = Page issues next ->
  py_iter issues = Exc e
  \/ (exists items, py_iter issues = Ok items /\ scan_issues items title = Exc e) ->
  check_existing_issue w fuel repo token title t
  = ([GetIssues (issues_url repo) token true], t, Exc e)
  /\ is_RequestException e = false.
Proof.
  intros Hfuel Hf Hbad. destruct fuel as [|fuel]; [lia|].
  assert (Hscan : forall items, scan_issues items title = Exc e ->
                                is_RequestException e = false).
  { induction items as [|i items IH]; simpl; [discriminate|].
    destruct i; simpl; try (intros H; inversion H; reflexivity).
    destruct (py_eq_str _ title); [discriminate|exact IH]. }
  assert (He : is_RequestException e = false).
  { destruct Hbad as [H | [items [_ H]]]; [|exact (Hscan items H)].
    destruct issues; simpl in H; inversion H; reflexivity. }
  split; [|exact He].
  unfold check_existing_issue. simpl issue_loop.
  unfold issue_round, get_issue_page. monad_unfold. rewrite Hf. cbn [fst snd].
  destruct Hbad as [H | [items [Hi H]]].
  - rewrite H. destruct e; try discriminate; reflexivity.
  - rewrite Hi, H. destruct e; try discriminate; reflexivity.
Qed.

End ClientEdges.

(** ** Further properties of the orchestrator *)

Section OrchestratorEdges.

Context {T : Type} (w : World T).

Lemma no_network_no_posts (l : list event) :
  existsb is_network l = false -> count_posts l = 0.
Proof.
  unfold count_posts. induction l as [|e l IH]; [reflexivity|].
  simpl. intros H. apply orb_false_iff in H. destruct H as [He Hl].
  destruct e; try discriminate; simpl; exact (IH Hl).
Qed.

Lemma bind_exc {A B} (m : M T A) (k : A -> M T B) (t t1 : T)
  (ev : list event) (e : py_exn) :
  m t = (ev, t1, Exc e) -> bind m k t = (ev, t1, Exc e).
Proof. intros H. unfold bind. rewrite H. reflexivity. Qed.

Lemma count_posts_app (l1 l2 : list event) :
  count_posts (l1 ++ l2) = count_posts l1 + count_posts l2.
Proof. unfold count_posts. rewrite filter_app, length_app. reflexivity. Qed.

(** X9.  Maintainers that cannot be joined stop [open_issue] with a
    [TypeError].  When their value is truthy (a list that holds a number,
    say) the exception is raised by the log line of line 213, before any
    create-issue request; when it is falsy ([None], as for a [default]
    key left empty) the request is sent first, and the exception follows
    a request that succeeded. *)
Theorem open_issue_unjoinable (REPO github_token mf : string) (vf : value_file)
  (name target title : string) (latest assignees : pyval) (evm : list event)
  (e : py_exn) (t : T) :
  get_maintainers w mf (vf_group vf) t = (evm, t, Ok assignees) ->
  py_join ", " assignees = Exc e ->
  let o := open_issue w REPO github_token mf vf name target title latest t in
  let posted :=
    post_issue w t (issues_url REPO) github_token title
               (issue_body w REPO (vf_path vf) name target latest) assignees in
  (py_truthy assignees = true ->
   o = (Stdout ("Found new version for " ++ name ++ "! Creating issue...") :: evm,
        t, Exc e)
   /\ count_posts (trace_of o) = 0)
  /\ (py_truthy assignees = false ->
      count_posts (trace_of o) = 1
      /\ tracker_of o = snd posted
      /\ (fst posted = Posted -> result_of o = Exc e)).
Proof.
  intros Hm Hjoin. cbv zeta.
  destruct (get_maintainers_returns w mf (vf_group vf) t) as [evm' [a' [Hm' Hnet]]].
  rewrite Hm in Hm'. inversion Hm'; subst evm' a'. clear Hm'.
  unfold open_issue.
  rewrite (bind_ok _ _ t t _ tt eq_refl).
  rewrite (bind_ok _ _ t t evm assignees Hm).
  split; intros Htruthy; rewrite Htruthy.
  - assert (Hmid : (joined <- lift (py_join ", " assignees) ;;
                    print ("Found maintainers for '" ++ vf_group vf ++ "': "
                           ++ joined)) t = ([], t, Exc e)).
    { monad_unfold. rewrite Hjoin. reflexivity. }
    rewrite (bind_exc _ _ t t [] e Hmid).
    cbn [trace_of tracker_of result_of fst snd print emit].
    rewrite app_nil_r. split; [reflexivity|].
    cbn [app]. change (count_posts evm = 0). exact (no_network_no_posts _ Hnet).
  - rewrite (bind_ok _ _ t t [] tt eq_refl).
    rewrite (create_github_issue_unjoined w REPO github_token title _ assignees e t
               Hjoin).
    destruct (post_issue w t (issues_url REPO) github_token title _ assignees)
      as [[text response|] t'];
      cbn [trace_of tracker_of result_of fst snd print emit app];
      (split; [|split; [reflexivity|]]).
    + change (count_posts (evm ++ [PostIssue (issues_url REPO) github_token title
                (issue_body w REPO (vf_path vf) name target latest) assignees;
                Stderr ("Error creating GitHub issue '" ++ title ++ "': "
                        ++ creation_error_details text response)]) = 1).
      rewrite count_posts_app, (no_network_no_posts _ Hnet). reflexivity.
    + discriminate.
    + change (count_posts (evm ++ [PostIssue (issues_url REPO) github_token title
                (issue_body w REPO (vf_path vf) name target latest) assignees]) = 1).
      rewrite count_posts_app, (no_network_no_posts _ Hnet). reflexivity.
    + reflexivity.
Qed.

(** X10.  The search answers with the [number] field of the issue it
    found, and [notify] tests the truth value of the answer: an issue with
    the right title whose number is missing, null or zero counts as no
    issue, and [notify] goes on to open one. *)
Theorem notify_unnumbered_issue (fuel : nat) (REPO github_token mf : string)
  (vf : value_file) (name target : string) (latest : pyval) (t : T)
  (visited : list (string * bool)) (issue : pyval) :
  update_wanted latest target = true ->
  search_path w t github_token (issue_title w name latest) (issues_url REPO) true
              visited (Found issue) ->
  length visited <= fuel ->
  py_truthy (issue_number issue) = false ->
  let o := open_issue w REPO github_token mf vf name target
                      (issue_title w name latest) latest t in
  notify w fuel REPO github_token mf vf name target latest t
  = ((requests github_token visited ++ trace_of o)%list, tracker_of o, result_of o).
Proof.
  intros Hw Hpath Hfuel Hn. cbv zeta.
  rewrite (notify_after_search w fuel REPO github_token mf vf name target latest t
             visited (Found issue) Hw Hpath Hfuel).
  cbn [search_answer search_log]. rewrite Hn. reflexivity.
Qed.

(** X11.  An entry of a values file that is not a mapping is skipped with
    one warning on stderr, and a mapping without a chart name (the key
    missing, null or empty) with one warning on stdout; in both cases
    nothing is requested, not even the chart index, and the loop goes
    on. *)
Theorem process_app_skips (fuel : nat) (REPO github_token mf : string)
  (vf : value_file) (name : string) (details : pyval) (t : T) :
  (is_dict details = false ->
   process_app w fuel REPO github_token mf vf name details t
   = ([Stderr ("Warning: Skipping '" ++ name ++ "' in " ++ vf_path vf
               ++ " because its value is not a dictionary.")], t, Ok tt))
  /\ (forall d, details = PDict d -> py_truthy (field d "chart") = false ->
        process_app w fuel REPO github_token mf vf name details t
        = ([Stdout ("Warning: Missing 'chart' key for '" ++ name ++ "' in "
                    ++ vf_path vf ++ ". Skipping.")], t, Ok tt)).
Proof.
  split.
  - intros Hd. unfold process_app. rewrite Hd. reflexivity.
  - intros d -> Hchart. unfold process_app. cbn [is_dict negb py_get].
    fold (field d "repoURL"). fold (field d "chart").
    monad_unfold. rewrite Hchart. reflexivity.
Qed.

Lemma process_app_resolver_outcome (fuel : nat) (REPO github_token mf : string)
  (vf : value_file) (name : string) (d : list (string * pyval))
  (ev0 : list event) (t t0 : T) (r : result pyval) :
  py_truthy (field d "chart") = true ->
  get_latest_helm_version w (field d "repoURL") (field d "chart") (field d "chart") t
    = (ev0, t0, r) ->
  match r with Ok latest => py_truthy latest = false | _ => True end ->
  process_app w fuel REPO github_token mf vf name (PDict d) t
  = (ev0, t0, match r with
              | Ok _ => Ok tt
              | Exc e => Exc e
              | OutOfFuel => OutOfFuel
              end).
Proof.
  intros Hchart Hl Hr. unfold process_app. cbn [is_dict negb py_get].
  fold (field d "repoURL"). fold (field d "chart").
  monad_unfold. rewrite Hchart. cbn [negb orb]. rewrite Hl.
  destruct r as [latest|e|]; try reflexivity.
  rewrite Hr. cbn [negb]. rewrite !app_nil_r. reflexivity.
Qed.

(** X12.  When the resolver answers [None], or any falsy value such as
    an empty version string, the application is dropped without a word:
    nothing is printed or requested beyond what the resolver did.  When
    the resolver raises, the exception leaves [process_app] as it is. *)
Theorem process_app_unresolved (fuel : nat) (REPO github_token mf : string)
  (vf : value_file) (name : string) (d : list (string * pyval))
  (ev0 : list event) (t t0 : T) (r : result pyval) :
  py_truthy (field d "chart") = true ->
  get_latest_helm_version w (field d "repoURL") (field d "chart") (field d "chart") t
    = (ev0, t0, r) ->
  (forall latest, r = Ok latest -> py_truthy latest = false ->
     process_app w fuel REPO github_token mf vf name (PDict d) t = (ev0, t0, Ok tt))
  /\ (forall e, r = Exc e ->
        process_app w fuel REPO github_token mf vf name (PDict d) t
        = (ev0, t0, Exc e)).
Proof.
  intros Hchart Hl. split.
  - intros latest -> Hf.
    exact (process_app_resolver_outcome fuel REPO github_token mf vf name d ev0 t t0
             (Ok latest) Hchart Hl Hf).
  - intros e ->.
    exact (process_app_resolver_outcome fuel REPO github_token mf vf name d ev0 t t0
             (Exc e) Hchart Hl I).
Qed.

(** X13.  An application without a declared version (no [targetRevision]
    key, or an empty string) never reaches the tracker: whatever its
    latest version is, and whatever the chart repository and the tracker
    would answer, no listing and no create-issue request is sent for it
    and the tracker is left as it was. *)
Theorem process_app_undeclared (fuel : nat) (REPO github_token mf : string)
  (vf : value_file) (name : string) (d : list (string * pyval)) (t : T) :
  (dict_get d "targetRevision" = None -> declared_version w d = "")
  /\ (declared_version w d = "" ->
      existsb is_issue_request
        (trace_of (process_app w fuel REPO github_token mf vf name (PDict d) t))
      = false
      /\ tracker_of (process_app w fuel REPO github_token mf vf name (PDict d) t) = t).
Proof.
  split.
  - intros H. unfold declared_version. rewrite H. reflexivity.
  - intros Hdecl.
    destruct (py_truthy (field d "chart")) eqn:Hchart.
    + pose proof (get_latest_helm_version_quiet w
                    (field d "repoURL") (field d "chart") (field d "chart") t)
        as [Ht Hq].
      destruct (get_latest_helm_version w (field d "repoURL") (field d "chart")
                  (field d "chart") t) as [[ev0 t0] r] eqn:Hl.
      cbn [trace_of tracker_of fst snd] in Ht, Hq. subst t0.
      destruct r as [latest|e|].
      * destruct (py_truthy latest) eqn:Htruthy.
        -- rewrite (process_app_compares w fuel REPO github_token mf vf name d latest
                      ev0 t t Hchart Hl Htruthy). cbv zeta.
           rewrite Hdecl.
           assert (Hw : update_wanted latest "" = false)
             by (unfold update_wanted; rewrite andb_false_r; reflexivity).
           rewrite (notify_not_wanted w _ _ _ _ _ _ _ _ _ Hw).
           cbn [trace_of tracker_of fst snd]. split; [|reflexivity].
           rewrite !existsb_app, Hq. reflexivity.
        -- rewrite (process_app_resolver_outcome fuel REPO github_token mf vf name d
                      ev0 t t (Ok latest) Hchart Hl Htruthy).
           split; [exact Hq|reflexivity].
      * rewrite (process_app_resolver_outcome fuel REPO github_token mf vf name d
                   ev0 t t (Exc e) Hchart Hl I).
        split; [exact Hq|reflexivity].
      * rewrite (process_app_resolver_outcome fuel REPO github_token mf vf name d
                   ev0 t t OutOfFuel Hchart Hl I).
        split; [exact Hq|reflexivity].
    + rewrite (proj2 (process_app_skips fuel REPO github_token mf vf name (PDict d) t)
                 d eq_refl Hchart).
      split; reflexivity.
Qed.

End OrchestratorEdges.

(** ** Further properties of the run *)

Section RunEdges.

Context {T : Type} (w : World T).

Lemma load_values_outcome (vf : value_file) (t : T) :
  try_except (doc <- open_yaml w (vf_path vf) ;; ret (Some doc))
    (fun e =>
       if is_Exception e
       then Some (eprint ("Error reading or parsing YAML file "
                          ++ vf_path vf ++ ": " ++ str_exn w e) ;;
                  ret None)
       else None) t
  = match load_yaml w (vf_path vf) with
    | FileDoc doc => ([], t, Ok (Some doc))
    | FileMissing text | FileUnreadable text =>
        ([Stderr ("Error reading or parsing YAML file " ++ vf_path vf
                  ++ ": " ++ text)], t, Ok None)
    end.
Proof.
  unfold open_yaml. monad_unfold.
  destruct (load_yaml w (vf_path vf)); reflexivity.
Qed.

(** X14.  A values file that is missing, unreadable or not YAML is
    reported on stderr and skipped, and a document that is empty or null
    is skipped in silence: in both cases nothing is requested and the run
    goes on.  A document that holds something other than a mapping (a
    list, a string, a number) is not skipped: [.items()] raises
    [AttributeError], which nothing catches. *)
Theorem process_file_load_outcomes (fuel : nat) (REPO github_token mf : string)
  (vf : value_file) (t : T) :
  let heading := Stdout (nl ++ "--- Processing file: " ++ vf_path vf ++ " ---") in
  (forall text,
     load_yaml w (vf_path vf) = FileMissing text
     \/ load_yaml w (vf_path vf) = FileUnreadable text ->
     process_file w fuel REPO github_token mf vf t
     = ([heading;
         Stderr ("Error reading or parsing YAML file " ++ vf_path vf ++ ": " ++ text)],
        t, Ok tt))
  /\ (forall doc,
        load_yaml w (vf_path vf) = FileDoc doc -> py_truthy doc = false ->
        process_file w fuel REPO github_token mf vf t = ([heading], t, Ok tt))
  /\ (forall doc,
        load_yaml w (vf_path vf) = FileDoc doc -> py_truthy doc = true ->
        is_dict doc = false ->
        process_file w fuel REPO github_token mf vf t
        = ([heading], t, Exc (AttributeError doc "items"))).
Proof.
  cbv zeta. unfold process_file.
  rewrite (bind_ok _ _ t t _ tt eq_refl).
  cbn [trace_of tracker_of result_of fst snd print emit].
  split; [|split].
  - intros text Hload.
    pose proof (load_values_outcome vf t) as Hl.
    destruct Hload as [Hload | Hload]; rewrite Hload in Hl;
      rewrite (bind_ok _ _ t t _ _ Hl); reflexivity.
  - intros doc Hload Hfalsy.
    pose proof (load_values_outcome vf t) as Hl. rewrite Hload in Hl.
    rewrite (bind_ok _ _ t t _ _ Hl). rewrite Hfalsy. reflexivity.
  - intros doc Hload Htruthy Hdoc.
    pose proof (load_values_outcome vf t) as Hl. rewrite Hload in Hl.
    rewrite (bind_ok _ _ t t _ _ Hl). rewrite Htruthy. cbn [negb].
    destruct doc; try discriminate; reflexivity.
Qed.

(** X15.  Once the arguments are parsed, a fatal precondition ends
    [main] with [SystemExit(1)] after exactly one line on stderr, with no
    request sent and the tracker left as it was.  When the repository
    variable is unset or empty, or the token is empty, the line is the one
    they share, whether the maintainers file exists or not; when both are
    set and the maintainers file is not a file, the line names the
    file. *)
Theorem main_fatal_precondition (fuel : nat) (REPO : option string) (args : Args)
  (t : T) :
  (env_truthy REPO = false \/ token args = "" ->
   main w fuel REPO args t
   = ([Stderr "Error: GITHUB_REPOSITORY environment variable and --token argument must be set."],
      t, Exc (SystemExit 1)))
  /\ (env_truthy REPO = true -> token args <> "" ->
      is_file w (maintainers_file args) = false ->
      main w fuel REPO args t
      = ([Stderr ("Error: " ++ maintainers_file args ++ " not found.")], t,
         Exc (SystemExit 1))).
Proof.
  split.
  - intros H. unfold main. cbv zeta.
    assert (Hset : negb (env_truthy REPO) || (token args =? "") = true).
    { destruct H as [H | H]; [rewrite H; reflexivity|].
      rewrite H. apply orb_true_r. }
    rewrite Hset. reflexivity.
  - intros Hrepo Htoken Hfile. unfold main. cbv zeta.
    apply String.eqb_neq in Htoken. rewrite Hrepo, Htoken, Hfile. reflexivity.
Qed.

(** X16.  With the preconditions met and no values file under the charts
    directory, the whole output of [main] is the repository line and the
    notice of line 159, both on stdout: nothing is requested, the tracker
    is left as it was, the end-of-run message is not printed, and [main]
    returns normally. *)
Theorem main_without_values_files (fuel : nat) (REPO : option string) (args : Args)
  (t : T) :
  env_truthy REPO = true -> token args <> "" ->
  is_file w (maintainers_file args) = true ->
  glob_values w (charts_path args) = [] ->
  main w fuel REPO args t
  = ([Stdout ("Running on repository: " ++ env_str REPO); no_values_files args],
     t, Ok tt).
Proof.
  intros Hrepo Htoken Hfile Hglob. unfold main. cbv zeta.
  apply String.eqb_neq in Htoken. rewrite Hrepo, Htoken, Hfile, Hglob. reflexivity.
Qed.

End RunEdges.

(** ** How many issues a run can create, and where *)

Section PostsBound.

Context {T : Type} (w : World T).

Lemma posts_at_most_mono {A} (n n' : nat) (m : M T A) :
  n <= n' -> posts_at_most n m -> posts_at_most n' m.
Proof. intros Hn Hm t. specialize (Hm t). lia. Qed.

Lemma posts_at_most_bind {A B} (a b : nat) (m : M T A) (k : A -> M T B) :
  posts_at_most a m ->
  (forall t ev t1 x, m t = (ev, t1, Ok x) -> count_posts (trace_of (k x t1)) <= b) ->
  posts_at_most (a + b) (bind m k).
Proof.
  intros Hm Hk t. specialize (Hm t). unfold bind.
  destruct (m t) as [[ev t1] [x|e|]] eqn:Hmt; cbn [trace_of fst] in *; try lia.
  specialize (Hk t ev t1 x Hmt).
  destruct (k x t1) as [[ev2 t2] r]. cbn [trace_of fst] in *.
  rewrite count_posts_app. lia.
Qed.

Lemma posts_at_most_seq {A B} (a b : nat) (m : M T A) (k : A -> M T B) :
  posts_at_most a m -> (forall x, posts_at_most b (k x)) ->
  posts_at_most (a + b) (bind m k).
Proof.
  intros Hm Hk. apply posts_at_most_bind; [exact Hm|].
  intros t ev t1 x _. exact (Hk x t1).
Qed.

Lemma posts_at_most_try {A} (a b : nat) (body : M T A)
  (h : py_exn -> option (M T A)) :
  posts_at_most a body ->
  (forall e handler, h e = Some handler -> posts_at_most b handler) ->
  posts_at_most (a + b) (try_except body h).
Proof.
  intros Hb Hh t. specialize (Hb t). unfold try_except.
  destruct (body t) as [[ev t1] [x|e|]]; cbn [trace_of fst] in *; try lia.
  destruct (h e) as [handler|] eqn:He; cbn [trace_of fst]; [|lia].
  specialize (Hh e handler He t1).
  destruct (handler t1) as [[ev2 t2] r]. cbn [trace_of fst] in *.
  rewrite count_posts_app. lia.
Qed.

Lemma posts_at_most_for_each {A} (f : A -> nat) (l : list A) (body : A -> M T unit) :
  (forall x, In x l -> posts_at_most (f x) (body x)) ->
  posts_at_most (list_sum (map f l)) (for_each l body).
Proof.
  induction l as [|x l IH]; intros Hbody.
  - intros t. cbn. lia.
  - cbn [for_each map list_sum]. apply posts_at_most_seq.
    + apply Hbody. left. reflexivity.
    + intros _. apply IH. intros y Hy. apply Hbody. right. exact Hy.
Qed.

Lemma posts_at_most_quiet {A} (m : M T A) :
  (forall t, existsb is_post (trace_of (m t)) = false) -> posts_at_most 0 m.
Proof.
  intros H t. specialize (H t). unfold count_posts.
  induction (trace_of (m t)) as [|e l IH]; [cbn; lia|].
  cbn in H. apply orb_false_iff in H. destruct H as [He Hl].
  cbn. rewrite He. exact (IH Hl).
Qed.

Lemma posts_print {A} (s : string) (k : unit -> M T A) (n : nat) :
  (forall x, posts_at_most n (k x)) -> posts_at_most n (bind (print s) k).
Proof.
  intros Hk. change n with (0 + n). apply posts_at_most_seq; [|exact Hk].
  intros t. cbn. lia.
Qed.

Lemma posts_get_maintainers (path group : string) :
  posts_at_most 0 (get_maintainers w path group).
Proof.
  intros t. destruct (get_maintainers_returns w path group t) as [ev [a [-> Hnet]]].
  cbn [trace_of fst]. rewrite (no_network_no_posts ev Hnet). lia.
Qed.

Lemma posts_resolver (repo_url chart_name repoPath : pyval) :
  posts_at_most 0 (get_latest_helm_version w repo_url chart_name repoPath).
Proof.
  apply posts_at_most_quiet. intros t.
  destruct (get_latest_helm_version_quiet w repo_url chart_name repoPath t) as [_ Hq].
  exact (no_issue_request_no_post _ Hq).
Qed.

Lemma posts_search (fuel : nat) (repo token title : string) :
  posts_at_most 0 (check_existing_issue w fuel repo token title).
Proof.
  apply posts_at_most_quiet. intros t. unfold check_existing_issue.
  destruct (issue_loop_shape w fuel (Some (issues_url repo)) token title true t)
    as [ev [r [-> [Hp _]]]].
  exact Hp.
Qed.

Lemma posts_create (repo token title body : string) (assignees : pyval) :
  posts_at_most 1 (create_github_issue w repo token title body assignees).
Proof.
  intros t.
  destruct (py_join ", " assignees) as [joined|e|] eqn:Hjoin.
  - rewrite (create_github_issue_joined w repo token title body joined assignees t
               Hjoin).
    destruct (post_issue w t (issues_url repo) token title body assignees)
      as [[text response|] t']; cbn; lia.
  - rewrite (create_github_issue_unjoined w repo token title body assignees e t
               Hjoin).
    destruct (post_issue w t (issues_url repo) token title body assignees)
      as [[text response|] t']; cbn; lia.
  - unfold py_join, rbind in Hjoin.
    destruct (py_iter assignees) as [items|e|] eqn:Hi; try discriminate.
    + destruct (all_strings items); discriminate.
    + destruct assignees; discriminate.
Qed.

Lemma posts_open_issue (REPO github_token mf : string) (vf : value_file)
  (name target title : string) (latest : pyval) :
  posts_at_most 1 (open_issue w REPO github_token mf vf name target title latest).
Proof.
  unfold open_issue. apply posts_print. intros _.
  change 1 with (0 + 1). apply posts_at_most_seq; [apply posts_get_maintainers|].
  intros assignees.
  change 1 with (0 + 1). apply posts_at_most_seq; [|intros _; apply posts_create].
  destruct (py_truthy assignees); intros t.
  - monad_unfold. destruct (py_join ", " assignees); cbn; lia.
  - cbn. lia.
Qed.

Lemma posts_notify (fuel : nat) (REPO github_token mf : string) (vf : value_file)
  (name target : string) (latest : pyval) :
  posts_at_most 1 (notify w fuel REPO github_token mf vf name target latest).
Proof.
  unfold notify. destruct (update_wanted latest target); [|intros t; cbn; lia].
  cbv zeta. change 1 with (0 + 1). apply posts_at_most_seq; [apply posts_search|].
  intros number. destruct (py_truthy number); cbn [negb].
  - intros t. cbn. lia.
  - apply posts_open_issue.
Qed.

Lemma posts_process_app (fuel : nat) (REPO github_token mf : string)
  (vf : value_file) (name : string) (details : pyval) :
  posts_at_most 1 (process_app w fuel REPO github_token mf vf name details).
Proof.
  unfold process_app.
  destruct details as [| | | | | |d]; cbn [is_dict negb];
    try (intros t; cbn; lia).
  cbn [py_get].
  do 4 (change 1 with (0 + 1); apply posts_at_most_seq;
        [intros t; cbn; lia|]; intros ?).
  match goal with
  | |- context [if ?c then _ else _] => destruct c
  end; [intros t; cbn; lia|].
  change 1 with (0 + 1). apply posts_at_most_seq; [apply posts_resolver|].
  intros latest. destruct (py_truthy latest); cbn [negb]; [|intros t; cbn; lia].
  do 5 (apply posts_print; intros _).
  apply posts_notify.
Qed.

Lemma posts_process_file (fuel : nat) (REPO github_token mf : string)
  (vf : value_file) :
  posts_at_most (app_count w vf) (process_file w fuel REPO github_token mf vf).
Proof.
  intros t. unfold process_file.
  rewrite (bind_ok _ _ t t _ tt eq_refl).
  cbn [trace_of tracker_of result_of fst snd print emit app].
  change (count_posts (Stdout (nl ++ "--- Processing file: " ++ vf_path vf ++ " ---")
                       :: ?l))
    with (count_posts l).
  pose proof (load_values_outcome w vf t) as Hl. unfold app_count.
  destruct (load_yaml w (vf_path vf)) as [doc|text|text];
    rewrite (bind_ok _ _ t t _ _ Hl);
    cbn [trace_of tracker_of result_of fst snd app]; try (cbn; lia).
  destruct (py_truthy doc); cbn [negb]; [|destruct doc; cbn; lia].
  destruct doc as [| | | | | |apps]; try (cbn; lia).
  rewrite (bind_ok _ _ t t [] apps eq_refl). cbn [trace_of fst app].
  pose proof (posts_at_most_for_each (fun _ => 1) apps
                (fun item => process_app w fuel REPO github_token mf vf
                               (fst item) (snd item))
                (fun x _ => posts_process_app fuel REPO github_token mf vf
                              (fst x) (snd x)) t) as H.
  assert (Hsum : list_sum (map (fun _ : string * pyval => 1) apps) = length apps).
  { clear. unfold list_sum.
    induction apps as [|x apps IH]; simpl; [reflexivity|]. rewrite IH.
    reflexivity. }
  rewrite Hsum in H. exact H.
Qed.

(** X17.  Whatever the files, the chart repositories and the tracker
    hold, one application gives rise to at most one create-issue request,
    and a run sends at most as many of them as its values files have
    entries. *)
Theorem create_requests_bounded (fuel : nat) (REPO : option string) (args : Args) :
  (forall github_token repo mf vf name details,
     posts_at_most 1 (process_app w fuel repo github_token mf vf name details))
  /\ posts_at_most
       (list_sum (map (app_count w) (glob_values w (charts_path args))))
       (main w fuel REPO args).
Proof.
  split.
  - intros github_token repo mf vf name details. apply posts_process_app.
  - unfold main. cbv zeta.
    destruct (negb (env_truthy REPO) || (token args =? ""));
      [intros t; cbn; lia|].
    destruct (negb (is_file w (maintainers_file args)));
      [intros t; cbn; lia|].
    apply posts_print. intros _.
    destruct (glob_values w (charts_path args)) as [|vf files];
      [intros t; cbn; lia|].
    rewrite <- (Nat.add_0_r (list_sum (map (app_count w) (vf :: files)))).
    apply posts_at_most_seq; [|intros _ t; cbn; lia].
    apply posts_at_most_for_each. intros x _. apply posts_process_file.
Qed.

End PostsBound.

Section PostsDestination.

Context {T : Type} (w : World T) (REPO github_token : string).

Lemma every_event_bind {A B} (P : event -> Prop) (m : M T A) (k : A -> M T B) :
  every_event P m -> (forall x, every_event P (k x)) -> every_event P (bind m k).
Proof.
  intros Hm Hk t. specialize (Hm t). unfold bind.
  destruct (m t) as [[ev t1] [x|e|]]; cbn [trace_of fst] in *; try exact Hm.
  specialize (Hk x t1). destruct (k x t1) as [[ev2 t2] r]. cbn [trace_of fst] in *.
  apply Forall_app. split; assumption.
Qed.

Lemma every_event_for_each {A} (P : event -> Prop) (l : list A)
  (body : A -> M T unit) :
  (forall x, every_event P (body x)) -> every_event P (for_each l body).
Proof.
  intros Hbody. induction l as [|x l IH].
  - intros t. constructor.
  - cbn [for_each]. apply every_event_bind; [apply Hbody|intros _; exact IH].
Qed.

Lemma configured_without_posts {A} (m : M T A) :
  posts_at_most 0 m -> every_event (post_as_configured w REPO github_token) m.
Proof.
  intros H t. specialize (H t). unfold count_posts in H.
  induction (trace_of (m t)) as [|e l IH]; [constructor|].
  cbn in H. destruct (is_post e) eqn:He; cbn in H; [lia|].
  constructor; [|exact (IH H)].
  destruct e; try exact I. discriminate.
Qed.

Lemma configured_print {A} (s : string) (k : unit -> M T A) :
  (forall x, every_event (post_as_configured w REPO github_token) (k x)) ->
  every_event (post_as_configured w REPO github_token) (bind (print s) k).
Proof.
  intros Hk. apply every_event_bind; [|exact Hk].
  intros t. repeat constructor.
Qed.

Lemma configured_create (name body : string) (latest assignees : pyval) :
  every_event (post_as_configured w REPO github_token)
    (create_github_issue w REPO github_token (issue_title w name latest) body
                         assignees).
Proof.
  intros t.
  assert (Hpost : post_as_configured w REPO github_token
                    (PostIssue (issues_url REPO) github_token
                               (issue_title w name latest) body assignees)).
  { split; [reflexivity|]. split; [reflexivity|]. do 2 eexists. reflexivity. }
  destruct (py_join ", " assignees) as [joined|e|] eqn:Hjoin.
  - rewrite (create_github_issue_joined w REPO github_token _ body joined assignees t
               Hjoin).
    destruct (post_issue w t (issues_url REPO) github_token _ body assignees)
      as [[text response|] t']; cbn [trace_of fst];
      repeat (constructor; try exact Hpost; try exact I).
  - rewrite (create_github_issue_unjoined w REPO github_token _ body assignees e t
               Hjoin).
    destruct (post_issue w t (issues_url REPO) github_token _ body assignees)
      as [[text response|] t']; cbn [trace_of fst];
      repeat (constructor; try exact Hpost; try exact I).
  - unfold py_join, rbind in Hjoin.
    destruct (py_iter assignees) as [items|e|] eqn:Hi; try discriminate.
    + destruct (all_strings items); discriminate.
    + destruct assignees; discriminate.
Qed.

Lemma configured_notify (fuel : nat) (mf : string) (vf : value_file)
  (name target : string) (latest : pyval) :
  every_event (post_as_configured w REPO github_token)
    (notify w fuel REPO github_token mf vf name target latest).
Proof.
  unfold notify. destruct (update_wanted latest target); [|intros t; constructor].
  cbv zeta. apply every_event_bind.
  - apply configured_without_posts, posts_search.
  - intros number. destruct (py_truthy number); cbn [negb].
    + intros t. repeat constructor.
    + unfold open_issue. apply configured_print. intros _.
      apply every_event_bind;
        [apply configured_without_posts, posts_get_maintainers|].
      intros assignees. apply every_event_bind; [|intros _; apply configured_create].
      destruct (py_truthy assignees); intros t.
      * monad_unfold. destruct (py_join ", " assignees); repeat constructor.
      * constructor.
Qed.

Lemma configured_process_app (fuel : nat) (mf : string) (vf : value_file)
  (name : string) (details : pyval) :
  every_event (post_as_configured w REPO github_token)
    (process_app w fuel REPO github_token mf vf name details).
Proof.
  unfold process_app.
  destruct details as [| | | | | |d]; cbn [is_dict negb];
    try solve [intros t; repeat constructor].
  cbn [py_get].
  do 4 (apply every_event_bind; [intros t; constructor|]; intros ?).
  match goal with
  | |- context [if ?c then _ else _] => destruct c
  end; [intros t; repeat constructor|].
  apply every_event_bind;
    [apply configured_without_posts, posts_resolver|].
  intros latest. destruct (py_truthy latest); cbn [negb]; [|intros t; constructor].
  do 5 (apply configured_print; intros _).
  apply configured_notify.
Qed.

Lemma configured_process_file (fuel : nat) (mf : string) (vf : value_file) :
  every_event (post_as_configured w REPO github_token)
    (process_file w fuel REPO github_token mf vf).
Proof.
  unfold process_file. apply configured_print. intros _.
  apply every_event_bind.
  - intros t. rewrite (load_values_outcome w vf t).
    destruct (load_yaml w (vf_path vf)); repeat constructor.
  - intros [apps_data|]; [|intros t; constructor].
    destruct (py_truthy apps_data); cbn [negb]; [|intros t; constructor].
    apply every_event_bind; [intros t; constructor|].
    intros items. apply every_event_for_each. intros item.
    apply configured_process_app.
Qed.

End PostsDestination.

Section PostsDestinationRun.

Context {T : Type} (w : World T).

(** X18.  Every create-issue request of a run goes to the issue list of
    the repository named by the environment, carries the token of the
    command line, and has a title of the form [New Version Available:
    <name> <version>]: the run creates no issue anywhere else and none of
    another kind. *)
Theorem create_requests_as_configured (fuel : nat) (REPO : option string)
  (args : Args) :
  every_event (post_as_configured w (env_str REPO) (token args))
              (main w fuel REPO args).
Proof.
  unfold main. cbv zeta.
  destruct (negb (env_truthy REPO) || (token args =? ""));
    [intros t; repeat constructor|].
  destruct (negb (is_file w (maintainers_file args)));
    [intros t; repeat constructor|].
  apply configured_print. intros _.
  destruct (glob_values w (charts_path args)) as [|vf files];
    [intros t; repeat constructor|].
  apply every_event_bind; [|intros _ t; repeat constructor].
  apply every_event_for_each. intros x. apply configured_process_file.
Qed.

End PostsDestinationRun.

(** ** The further properties in the scenario of the test suite *)

(** X1 at the repository of [cert-manager]. *)
Lemma index_url_ignores_trailing_slashes_witness :
  ends_with_slash (rstrip_slash "https://charts.jetstack.io") = false
  /\ index_url_of "https://charts.jetstack.io"
     = "https://charts.jetstack.io" ++ "/index.yaml"
  /\ index_url_of ("https://charts.jetstack.io" ++ "/")
     = index_url_of "https://charts.jetstack.io"
  /\ rstrip_slash (rstrip_slash "https://charts.jetstack.io")
     = rstrip_slash "https://charts.jetstack.io".
Proof.
  destruct (index_url_ignores_trailing_slashes "https://charts.jetstack.io")
    as [H1 [H2 [H3 H4]]].
  split; [exact H1|]. split; [exact (H2 eq_refl)|]. split; [exact H3|exact H4].
Defined.

(** X2 at the chart repository that answers 404. *)
Lemma get_latest_helm_version_transport_failure_witness :
  get_latest_helm_version demo_world (PStr "https://charts.example.com")
    (PStr "this-chart-does-not-exists") (PStr "this-chart-does-not-exists") []
  = ([GetIndex (index_url_of "https://charts.example.com");
      Stderr ("Error: Failed to download index.yaml from "
              ++ index_url_of "https://charts.example.com"
              ++ ". Details: " ++ "404 Client Error: Not Found")], [], Ok PNone).
Proof.
  exact (get_latest_helm_version_transport_failure demo_world
           "https://charts.example.com" (PStr "this-chart-does-not-exists")
           (PStr "this-chart-does-not-exists") [] "404 Client Error: Not Found"
           (Some (false, "Not Found")) eq_refl eq_refl eq_refl).
Defined.

(** X3 at the index of [cert-manager], for the chart and for a chart
    that the index does not list. *)
Lemma get_latest_helm_version_parsed_witness :
  get_latest_helm_version demo_world (PStr "https://charts.jetstack.io")
    (PStr "cert-manager") (PStr "cert-manager") []
  = ([GetIndex (index_url_of "https://charts.jetstack.io")], [], Ok (PStr "v1.19.1"))
  /\ get_latest_helm_version demo_world (PStr "https://charts.jetstack.io")
       (PStr "chart-does-not-exist") (PStr "chart-does-not-exist") []
     = ([GetIndex (index_url_of "https://charts.jetstack.io");
         Stderr ("Error: Could not parse version for chart '"
                 ++ py_str demo_world (PStr "chart-does-not-exist") ++ "' from "
                 ++ index_url_of "https://charts.jetstack.io" ++ ". Details: "
                 ++ str_exn demo_world (KeyError (PStr "chart-does-not-exist")))],
        [], Ok PNone).
Proof.
  split.
  - exact (proj1 (get_latest_helm_version_parsed demo_world
                    "https://charts.jetstack.io" (PStr "cert-manager")
                    (PStr "cert-manager")
                    (index_of "cert-manager" "v1.19.1" "v1.18.2") []
                    eq_refl eq_refl eq_refl)
                 (PStr "v1.19.1") eq_refl).
  - exact (proj2 (proj1 (proj2 (get_latest_helm_version_parsed demo_world
                                  "https://charts.jetstack.io"
                                  (PStr "chart-does-not-exist")
                                  (PStr "chart-does-not-exist")
                                  (index_of "cert-manager" "v1.19.1" "v1.18.2") []
                                  eq_refl eq_refl eq_refl))
                        (KeyError (PStr "chart-does-not-exist")) eq_refl)).
Defined.

(** X4 at a numeric [repoURL]. *)
Lemma get_latest_helm_version_non_string_url_witness :
  get_latest_helm_version demo_world (PInt 8080) (PStr "cert-manager")
    (PStr "cert-manager") []
  = ([], [], Exc (AttributeError (PInt 8080) "rstrip")).
Proof.
  apply (get_latest_helm_version_non_string_url demo_world (PInt 8080)).
  - reflexivity.
  - intros s. discriminate.
Defined.

(** X5 at the call of [test_create_github_issue], and at assignees given
    as one string with a letter outside ASCII, which is joined character
    by character. *)
Lemma create_github_issue_outcome_witness :
  (let o := create_github_issue demo_world "test-owner/test-repo" "fake-token"
              "Test Title" "Test Body" (PList [PStr "user1"; PStr "user2"]) [] in
   result_of o = Ok tt
   /\ count_posts (trace_of o) = 1
   /\ tracker_of o = [("Test Title", 1%Z)]
   /\ trace_of o
      = [PostIssue (issues_url "test-owner/test-repo") "fake-token" "Test Title"
           "Test Body" (PList [PStr "user1"; PStr "user2"]);
         Stdout ("Successfully created issue '" ++ "Test Title"
                 ++ "' and assigned to: " ++ "user1, user2")])
  /\ (let o := create_github_issue demo_world "test-owner/test-repo" "fake-token"
                 "Test Title" "Test Body" (PStr ("zo" ++ e_acute)) [] in
      result_of o = Ok tt
      /\ count_posts (trace_of o) = 1
      /\ tracker_of o = [("Test Title", 1%Z)]
      /\ trace_of o
         = [PostIssue (issues_url "test-owner/test-repo") "fake-token" "Test Title"
              "Test Body" (PStr ("zo" ++ e_acute));
            Stdout ("Successfully created issue '" ++ "Test Title"
                    ++ "' and assigned to: " ++ ("z, o, " ++ e_acute))]).
Proof.
  split.
  - exact (create_github_issue_outcome demo_world "test-owner/test-repo"
             "fake-token" "Test Title" "Test Body" "user1, user2"
             (PList [PStr "user1"; PStr "user2"]) [] eq_refl).
  - exact (create_github_issue_outcome demo_world "test-owner/test-repo"
             "fake-token" "Test Title" "Test Body" ("z, o, " ++ e_acute)
             (PStr ("zo" ++ e_acute)) [] eq_refl).
Defined.

(** X6 at assignees that are [None], with a tracker that accepts the
    request. *)
Lemma create_github_issue_unjoinable_witness :
  let o := create_github_issue demo_world "test-owner/test-repo" "fake-token"
             "Test Title" "Test Body" PNone [] in
  count_posts (trace_of o) = 1
  /\ tracker_of o = [("Test Title", 1%Z)]
  /\ (trace_of o
      = [PostIssue (issues_url "test-owner/test-repo") "fake-token" "Test Title"
           "Test Body" PNone]
      /\ result_of o = Exc (TypeError PNone PNone))
  /\ is_RequestException (TypeError PNone PNone) = false.
Proof.
  exact (create_github_issue_unjoinable demo_world "test-owner/test-repo"
           "fake-token" "Test Title" "Test Body" PNone (TypeError PNone PNone) []
           eq_refl).
Defined.

(** X8 at a listing that answers with an error object. *)
Lemma check_existing_issue_malformed_page_witness :
  check_existing_issue error_object_world 1 "test-owner/test-repo" "fake-token"
    "New Version Available: certManager v1.19.1" []
  = ([GetIssues (issues_url "test-owner/test-repo") "fake-token" true], [],
     Exc (AttributeError (PStr "message") "get"))
  /\ is_RequestException (AttributeError (PStr "message") "get") = false.
Proof.
  apply (check_existing_issue_malformed_page error_object_world 1
           "test-owner/test-repo" "fake-token"
           "New Version Available: certManager v1.19.1" []
           (PDict [("message", PStr "Bad credentials")]) None).
  - lia.
  - reflexivity.
  - right. exists [PStr "message"]. split; reflexivity.
Defined.

(** X9 at a group with a numeric identifier, and at a group that falls
    back to a [default] left empty. *)
Lemma open_issue_unjoinable_witness :
  (let o := open_issue odd_world "test-owner/test-repo" "fake-token"
              "MAINTAINERS.yaml" firsttest "certManager" "v1.18.2"
              "New Version Available: certManager v1.19.1" (PStr "v1.19.1") [] in
   o = ([Stdout ("Found new version for " ++ "certManager" ++ "! Creating issue...")],
        [], Exc (TypeError (PList [PInt 12345]) PNone))
   /\ count_posts (trace_of o) = 0)
  /\ (let o := open_issue odd_world "test-owner/test-repo" "fake-token"
                 "MAINTAINERS.yaml" secondtest "argocd" "8.5.8"
                 "New Version Available: argocd 8.6.2" (PStr "8.6.2") [] in
      count_posts (trace_of o) = 1
      /\ tracker_of o = [("New Version Available: argocd 8.6.2", 1%Z)]
      /\ result_of o = Exc (TypeError PNone PNone)).
Proof.
  split.
  - exact (proj1 (open_issue_unjoinable odd_world "test-owner/test-repo"
                    "fake-token" "MAINTAINERS.yaml" firsttest "certManager"
                    "v1.18.2" "New Version Available: certManager v1.19.1"
                    (PStr "v1.19.1") (PList [PInt 12345]) []
                    (TypeError (PList [PInt 12345]) PNone) [] eq_refl eq_refl)
                 eq_refl).
  - destruct (proj2 (open_issue_unjoinable odd_world "test-owner/test-repo"
                       "fake-token" "MAINTAINERS.yaml" secondtest "argocd"
                       "8.5.8" "New Version Available: argocd 8.6.2"
                       (PStr "8.6.2") PNone
                       [Stdout ("No specific maintainers found for '"
                                ++ "secondtest-apps"
                                ++ "'. Looking for 'default' maintainers.")]
                       (TypeError PNone PNone) [] eq_refl eq_refl)
                    eq_refl) as [H1 [H2 H3]].
    split; [exact H1|]. split; [exact H2|]. exact (H3 eq_refl).
Defined.

(** X10 at a listing whose matching issue has no number. *)
Lemma notify_unnumbered_issue_witness :
  let o := open_issue unnumbered_world "test-owner/test-repo" "fake-token"
             "MAINTAINERS.yaml" firsttest "certManager" "v1.18.2"
             (issue_title unnumbered_world "certManager" (PStr "v1.19.1"))
             (PStr "v1.19.1") [] in
  notify unnumbered_world 1 "test-owner/test-repo" "fake-token" "MAINTAINERS.yaml"
         firsttest "certManager" "v1.18.2" (PStr "v1.19.1") []
  = ((requests "fake-token" [(demo_issues_url, true)] ++ trace_of o)%list,
     tracker_of o, result_of o).
Proof.
  apply (notify_unnumbered_issue unnumbered_world 1 "test-owner/test-repo"
           "fake-token" "MAINTAINERS.yaml" firsttest "certManager" "v1.18.2"
           (PStr "v1.19.1") [] [(demo_issues_url, true)]
           (PDict [("title", PStr "New Version Available: certManager v1.19.1")])).
  - reflexivity.
  - apply (path_found unnumbered_world [] _ _ demo_issues_url true [] []
             (PDict [("title", PStr "New Version Available: certManager v1.19.1")])
             None).
    + discriminate.
    + reflexivity.
    + constructor.
    + eexists. split; reflexivity.
  - simpl. lia.
  - reflexivity.
Defined.

(** X11 at an entry that is a string, and at a mapping without a chart. *)
Lemma process_app_skips_witness :
  process_app demo_world 1 "test-owner/test-repo" "fake-token" "MAINTAINERS.yaml"
    firsttest "note" (PStr "not an application") []
  = ([Stderr ("Warning: Skipping '" ++ "note" ++ "' in " ++ vf_path firsttest
              ++ " because its value is not a dictionary.")], [], Ok tt)
  /\ process_app demo_world 1 "test-owner/test-repo" "fake-token" "MAINTAINERS.yaml"
       firsttest "missingValues"
       (PDict [("name", PStr "no-repo-url"); ("targetRevision", PStr "4.0.4")]) []
     = ([Stdout ("Warning: Missing 'chart' key for '" ++ "missingValues" ++ "' in "
                 ++ vf_path firsttest ++ ". Skipping.")], [], Ok tt).
Proof.
  split.
  - exact (proj1 (process_app_skips demo_world 1 "test-owner/test-repo"
                    "fake-token" "MAINTAINERS.yaml" firsttest "note"
                    (PStr "not an application") [])
                 eq_refl).
  - exact (proj2 (process_app_skips demo_world 1 "test-owner/test-repo"
                    "fake-token" "MAINTAINERS.yaml" firsttest "missingValues"
                    (PDict [("name", PStr "no-repo-url");
                            ("targetRevision", PStr "4.0.4")]) [])
                 _ eq_refl eq_refl).
Defined.

(** X12 at the chart whose repository answers 404, and at a numeric
    [repoURL]. *)
Lemma process_app_unresolved_witness :
  process_app demo_world 1 "test-owner/test-repo" "fake-token" "MAINTAINERS.yaml"
    firsttest "invalidChart" (PDict invalid_chart) []
  = ([GetIndex (index_url_of "https://charts.example.com");
      Stderr ("Error: Failed to download index.yaml from "
              ++ index_url_of "https://charts.example.com"
              ++ ". Details: " ++ "404 Client Error: Not Found")], [], Ok tt)
  /\ process_app demo_world 1 "test-owner/test-repo" "fake-token" "MAINTAINERS.yaml"
       firsttest "numeric"
       (PDict [("repoURL", PInt 8080); ("chart", PStr "cert-manager")]) []
     = ([], [], Exc (AttributeError (PInt 8080) "rstrip")).
Proof.
  split.
  - exact (proj1 (process_app_unresolved demo_world 1 "test-owner/test-repo"
                    "fake-token" "MAINTAINERS.yaml" firsttest "invalidChart"
                    invalid_chart _ [] [] (Ok PNone) eq_refl eq_refl)
                 PNone eq_refl eq_refl).
  - exact (proj2 (process_app_unresolved demo_world 1 "test-owner/test-repo"
                    "fake-token" "MAINTAINERS.yaml" firsttest "numeric"
                    [("repoURL", PInt 8080); ("chart", PStr "cert-manager")]
                    [] [] [] (Exc (AttributeError (PInt 8080) "rstrip"))
                    eq_refl eq_refl)
                 _ eq_refl).
Defined.

(** X13 at an application without [targetRevision]. *)
Lemma process_app_undeclared_witness :
  declared_version demo_world undeclared = ""
  /\ existsb is_issue_request
       (trace_of (process_app demo_world 1 "test-owner/test-repo" "fake-token"
                    "MAINTAINERS.yaml" firsttest "undeclared" (PDict undeclared) []))
     = false
  /\ tracker_of (process_app demo_world 1 "test-owner/test-repo" "fake-token"
                   "MAINTAINERS.yaml" firsttest "undeclared" (PDict undeclared) [])
     = [].
Proof.
  destruct (process_app_undeclared demo_world 1 "test-owner/test-repo" "fake-token"
              "MAINTAINERS.yaml" firsttest "undeclared" undeclared [])
    as [Hdecl Hquiet].
  split; [exact (Hdecl eq_refl)|]. exact (Hquiet (Hdecl eq_refl)).
Defined.

(** X14 at a values file that does not exist, at one that is empty and
    at one that holds a list. *)
Lemma process_file_load_outcomes_witness :
  process_file odd_world 1 "test-owner/test-repo" "fake-token" "MAINTAINERS.yaml"
    thirdtest []
  = ([Stdout (nl ++ "--- Processing file: " ++ vf_path thirdtest ++ " ---");
      Stderr ("Error reading or parsing YAML file " ++ vf_path thirdtest ++ ": "
              ++ "[Errno 2] No such file or directory")], [], Ok tt)
  /\ process_file odd_world 1 "test-owner/test-repo" "fake-token" "MAINTAINERS.yaml"
       secondtest []
     = ([Stdout (nl ++ "--- Processing file: " ++ vf_path secondtest ++ " ---")],
        [], Ok tt)
  /\ process_file odd_world 1 "test-owner/test-repo" "fake-token" "MAINTAINERS.yaml"
       firsttest []
     = ([Stdout (nl ++ "--- Processing file: " ++ vf_path firsttest ++ " ---")],
        [], Exc (AttributeError (PList [PStr "certManager"]) "items")).
Proof.
  split; [|split].
  - exact (proj1 (process_file_load_outcomes odd_world 1 "test-owner/test-repo"
                    "fake-token" "MAINTAINERS.yaml" thirdtest [])
                 "[Errno 2] No such file or directory" (or_introl eq_refl)).
  - exact (proj1 (proj2 (process_file_load_outcomes odd_world 1
                           "test-owner/test-repo" "fake-token" "MAINTAINERS.yaml"
                           secondtest []))
                 PNone eq_refl eq_refl).
  - exact (proj2 (proj2 (process_file_load_outcomes odd_world 1
                           "test-owner/test-repo" "fake-token" "MAINTAINERS.yaml"
                           firsttest []))
                 (PList [PStr "certManager"]) eq_refl eq_refl eq_refl).
Defined.

(** X15 at a run without [GITHUB_REPOSITORY], and at a run whose
    maintainers file is not there. *)
Lemma main_fatal_precondition_witness :
  main demo_world 1 None demo_args []
  = ([Stderr "Error: GITHUB_REPOSITORY environment variable and --token argument must be set."],
     [], Exc (SystemExit 1))
  /\ main demo_world 1 demo_repo
       {| token := "fake-token"; charts_path := "charts";
          maintainers_file := "OWNERS.yaml" |} []
     = ([Stderr ("Error: " ++ "OWNERS.yaml" ++ " not found.")], [],
        Exc (SystemExit 1)).
Proof.
  split.
  - exact (proj1 (main_fatal_precondition demo_world 1 None demo_args [])
                 (or_introl eq_refl)).
  - apply (proj2 (main_fatal_precondition demo_world 1 demo_repo
                    {| token := "fake-token"; charts_path := "charts";
                       maintainers_file := "OWNERS.yaml" |} [])).
    + reflexivity.
    + discriminate.
    + reflexivity.
Defined.

(** X16 at a charts directory without values files. *)
Lemma main_without_values_files_witness :
  main demo_world 1 demo_repo bare_args []
  = ([Stdout ("Running on repository: " ++ env_str demo_repo);
      no_values_files bare_args], [], Ok tt).
Proof.
  apply (main_without_values_files demo_world 1 demo_repo bare_args []).
  - reflexivity.
  - discriminate.
  - reflexivity.
  - reflexivity.
Defined.

(** ** The path on which an issue is opened *)

Section OpenPath.

Context {T : Type} (w : World T).

Lemma no_post_count (l : list event) :
  existsb is_post l = false -> count_posts l = 0.
Proof.
  unfold count_posts. induction l as [|e l IH]; [reflexivity|].
  simpl. intros H. apply orb_false_iff in H. destruct H as [He Hl].
  rewrite He. exact (IH Hl).
Qed.

(** X19.  When an update is wanted, the search runs out of pages without
    meeting the title, and the maintainers of the group can be joined,
    [notify] sends exactly one create-issue request: to the issue list of
    the repository, with the title of the search, the body built from the
    application and its two versions, and the maintainers that
    [get_maintainers] gave for the group of the values file as assignees.
    It returns normally whether the tracker accepts the request or
    not. *)
Theorem notify_opens_issue (fuel : nat) (REPO github_token mf : string)
  (vf : value_file) (name target : string) (latest : pyval) (t : T)
  (visited : list (string * bool)) (evm : list event) (assignees : pyval)
  (joined : string) :
  update_wanted latest target = true ->
  search_path w t github_token (issue_title w name latest) (issues_url REPO) true
              visited Exhausted ->
  length visited <= fuel ->
  get_maintainers w mf (vf_group vf) t = (evm, t, Ok assignees) ->
  py_join ", " assignees = Ok joined ->
  let o := notify w fuel REPO github_token mf vf name target latest t in
  result_of o = Ok tt
  /\ count_posts (trace_of o) = 1
  /\ In (PostIssue (issues_url REPO) github_token (issue_title w name latest)
           (issue_body w REPO (vf_path vf) name target latest) assignees)
        (trace_of o).
Proof.
  intros Hw Hpath Hfuel Hm Hjoin. cbv zeta.
  rewrite (notify_after_search w fuel REPO github_token mf vf name target latest t
             visited Exhausted Hw Hpath Hfuel).
  cbn [search_answer search_log py_truthy]. cbv zeta.
  destruct (open_issue_joined w REPO github_token mf vf name target
              (issue_title w name latest) joined latest assignees evm t Hm Hjoin)
    as [ev1 [ev2 [t' [-> [Hp1 [Hn2 _]]]]]].
  cbn [trace_of tracker_of result_of fst snd app].
  split; [reflexivity|]. split.
  - rewrite !count_posts_app, (no_post_count _ (requests_no_post _ _)),
      (no_post_count _ Hp1).
    change (count_posts (?e :: ev2)) with (S (count_posts ev2)).
    rewrite (no_network_no_posts ev2 Hn2). reflexivity.
  - rewrite !in_app_iff. right. right. left. reflexivity.
Qed.

End OpenPath.

(** X19 at [certManager], with a tracker that has no open issue. *)
Lemma notify_opens_issue_witness :
  let o := notify demo_world 1 "test-owner/test-repo" "fake-token"
             "MAINTAINERS.yaml" firsttest "certManager" "v1.18.2"
             (PStr "v1.19.1") [] in
  result_of o = Ok tt
  /\ count_posts (trace_of o) = 1
  /\ In (PostIssue (issues_url "test-owner/test-repo") "fake-token"
           (issue_title demo_world "certManager" (PStr "v1.19.1"))
           (issue_body demo_world "test-owner/test-repo" (vf_path firsttest)
                       "certManager" "v1.18.2" (PStr "v1.19.1"))
           (PList [PStr "gh-user2"]))
        (trace_of o).
Proof.
  apply (notify_opens_issue demo_world 1 "test-owner/test-repo" "fake-token"
           "MAINTAINERS.yaml" firsttest "certManager" "v1.18.2" (PStr "v1.19.1") []
           [(demo_issues_url, true)] [] (PList [PStr "gh-user2"]) "gh-user2").
  - reflexivity.
  - apply (path_exhausted demo_world [] _ _ demo_issues_url true [] None).
    + discriminate.
    + reflexivity.
    + constructor.
    + left. reflexivity.
  - simpl. lia.
  - reflexivity.
  - reflexivity.
Defined.
